(** * vbahelper: the workbook analyser of [main.py], embedded and verified

    The program is a sequential script around two external collaborators:
    the openpyxl workbook reader and a live Excel automation (COM) session.
    The embedding below keeps the shape of the Python source:

    - the outside world (file system, workbook contents, the automation
      host, the clock, the file dialog) is a record of answers, [World];
      every call that can raise in Python returns an [outcome];
    - the body of [analyze_excel_file] runs in a small state-and-exception
      monad whose state is the function's frame: the [results] dict, the
      local variable [excel] and the log of observable events;
    - every mutation of the [results] dict leaves a snapshot in the log, so
      that a property of "every point of the run" is a property of every
      snapshot;
    - the report is written into a string buffer by a sequence of [write]
      calls, exactly as the [with open(...)] block does.

    A Python [str] is modelled by a Rocq [string]; one character of the
    Rocq string stands for one character of the Python string. *)

From Stdlib Require Import String Ascii List ZArith Bool Lia DecimalString.
Import ListNotations.
Local Open Scope string_scope.
Local Open Scope Z_scope.

Set Implicit Arguments.

(* ================================================================== *)
(** * Python values used by the script *)

Module Py.

(** [needle in hay] on strings. *)
Fixpoint contains (needle hay : string) : bool :=
  String.prefix needle hay ||
  match hay with
  | EmptyString => false
  | String _ rest => contains needle rest
  end.

(** [s * n] on strings. *)
Fixpoint repeat (s : string) (n : nat) : string :=
  match n with
  | O => ""
  | S n' => s ++ repeat s n'
  end.

(** [str(i)] for an [int]. *)
Definition str_of_int (i : Z) : string :=
  NilZero.string_of_int (Z.to_int i).

(** [str(b)] for a [bool]. *)
Definition str_of_bool (b : bool) : string :=
  if b then "True" else "False".

(** Truth value of an optional string: [None] and [''] are false. *)
Definition truthy (o : option string) : bool :=
  match o with
  | None => false
  | Some s => negb (String.eqb s "")
  end.

(** Zero-padded decimal of width [width], as [%02d] and [%04d] print a
    non-negative field. *)
Definition zfill (width : nat) (i : Z) : string :=
  let s := str_of_int i in
  repeat "0" (width - String.length s) ++ s.

(** An insertion-ordered [dict] with string keys: assigning to a key that
    is present replaces the value in place, assigning to a new key appends
    the item at the end. *)
Definition dict (V : Type) := list (string * V).

Fixpoint dict_set {V} (d : dict V) (k : string) (v : V) : dict V :=
  match d with
  | [] => [(k, v)]
  | (k', v') :: d' =>
      if String.eqb k' k then (k', v) :: d' else (k', v') :: dict_set d' k v
  end.

Fixpoint dict_get {V} (d : dict V) (k : string) : option V :=
  match d with
  | [] => None
  | (k', v') :: d' => if String.eqb k' k then Some v' else dict_get d' k
  end.

Definition keys {V} (d : dict V) : list string := map fst d.

End Py.

(** ** [datetime] and [strftime] *)

Record datetime := {
  year : Z; month : Z; day : Z; hour : Z; minute : Z; second : Z
}.

(** The directives the script uses; any other character is copied. *)
Definition directive (c : ascii) (d : datetime) : string :=
  match c with
  | "Y"%char => Py.zfill 4 (year d)
  | "m"%char => Py.zfill 2 (month d)
  | "d"%char => Py.zfill 2 (day d)
  | "H"%char => Py.zfill 2 (hour d)
  | "M"%char => Py.zfill 2 (minute d)
  | "S"%char => Py.zfill 2 (second d)
  | _ => String "%" (String c "")
  end.

Fixpoint strftime (fmt : string) (d : datetime) : string :=
  match fmt with
  | EmptyString => ""
  | String "%" (String c rest) => directive c d ++ strftime rest d
  | String c rest => String c (strftime rest d)
  end.

(* ================================================================== *)
(** * Exceptions and outcomes *)

(** The two exception classes that occur: [FileNotFoundError] raised by the
    script itself, and [Exception] for everything a collaborator raises
    (all of them are caught by [except Exception]). *)
Inductive exn :=
| FileNotFoundError (msg : string)
| Exception (msg : string).

(** [str(e)]. *)
Definition str_of_exn (e : exn) : string :=
  match e with
  | FileNotFoundError msg => msg
  | Exception msg => msg
  end.

Inductive outcome (A : Type) :=
| Return (a : A)
| Raise (e : exn).
Arguments Return {A} a.
Arguments Raise {A} e.

(* ================================================================== *)
(** * The collaborators *)

(** ** os.path

    The path functions are the platform's; the script only composes them. *)
Class OsPath := {
  basename : string -> string;
  dirname : string -> string;
  abspath : string -> string;
  splitext : string -> string * string;
  join : string -> string -> string
}.

(** ** openpyxl *)

Module Openpyxl.
Record Worksheet := {
  title : string;
  calculate_dimension : string;
  print_area : option string
}.
Record Workbook := { worksheets : list Worksheet }.
End Openpyxl.

(** ** The automation session

    Each member access or call of the automation interface either returns
    or raises.  A property read is stable: reading it again gives the same
    outcome (the workbook is opened read-only in a hidden session). *)

Record CodeModuleT := {
  CountOfLines : outcome Z;
  Lines : Z -> Z -> outcome string
}.

Record VBComponent := {
  Name : outcome string;
  Type_ : outcome Z;
  CodeModule : outcome CodeModuleT
}.

Record VBAWorkbook := {
  (** [wb_vba.VBProject.VBComponents]: reaching the collection may raise;
      once reached, each step of the iteration yields a component or
      raises. *)
  VBProject_VBComponents : outcome (list (outcome VBComponent));
  (** [wb_vba.Close(SaveChanges=...)] *)
  Close : bool -> outcome unit
}.

Record ExcelApp := {
  set_DisplayAlerts : bool -> outcome unit;
  set_Visible : bool -> outcome unit;
  (** [excel.Workbooks.Open(path, ReadOnly=...)] *)
  Workbooks_Open : string -> bool -> outcome VBAWorkbook;
  Quit : outcome unit
}.

(** ** The world of one run *)

Record World := {
  path_exists : string -> bool;                    (* os.path.exists *)
  load_workbook : string -> outcome Openpyxl.Workbook;      (* openpyxl *)
  Dispatch : string -> outcome ExcelApp;           (* win32com.client *)
  now_at_analysis : datetime;                      (* datetime.now(), line 38 *)
  now_at_save : datetime;                          (* datetime.now(), line 101 *)
  askopenfilename : string;                        (* the file dialog *)
  open_w : string -> outcome unit                  (* open(path, 'w', ...) *)
}.

(* ================================================================== *)
(** * The result record *)

Module SheetInfo.
Record t := { name : string; has_content : bool; print_area : string }.
End SheetInfo.

Module ModuleInfo.
Record t := { name : string; type_ : Z; code_lines : Z }.
End ModuleInfo.

(** The [results] dict.  The key ['vba_error'] is absent until the handler
    stores it. *)
Record Results := {
  filename : string;
  full_path : string;
  analysis_date : string;
  worksheets : list SheetInfo.t;
  modules : list ModuleInfo.t;
  module_code : Py.dict string;
  vba_error : option string
}.

Definition append_worksheet (i : SheetInfo.t) (r : Results) : Results :=
  {| filename := filename r; full_path := full_path r;
     analysis_date := analysis_date r;
     worksheets := worksheets r ++ [i];
     modules := modules r; module_code := module_code r;
     vba_error := vba_error r |}.

Definition append_module (i : ModuleInfo.t) (r : Results) : Results :=
  {| filename := filename r; full_path := full_path r;
     analysis_date := analysis_date r;
     worksheets := worksheets r;
     modules := modules r ++ [i]; module_code := module_code r;
     vba_error := vba_error r |}.

Definition set_module_code (k code : string) (r : Results) : Results :=
  {| filename := filename r; full_path := full_path r;
     analysis_date := analysis_date r;
     worksheets := worksheets r;
     modules := modules r; module_code := Py.dict_set (module_code r) k code;
     vba_error := vba_error r |}.

Definition set_vba_error (msg : string) (r : Results) : Results :=
  {| filename := filename r; full_path := full_path r;
     analysis_date := analysis_date r;
     worksheets := worksheets r;
     modules := modules r; module_code := module_code r;
     vba_error := Some msg |}.

(* ================================================================== *)
(** * Observable events *)

Inductive Event :=
| EvLoadWorkbook (path : string)
| EvCoInitialize
| EvDispatch (prog_id : string)
| EvSetDisplayAlerts (b : bool)
| EvSetVisible (b : bool)
| EvWorkbooksOpen (path : string) (read_only : bool)
| EvClose (save_changes : bool)
| EvQuit
| EvCoUninitialize
| EvResults (snapshot : Results)       (* the results dict after a mutation *)
| EvAskOpenFilename
| EvPrint (text : string)
| EvOpen (path mode encoding : string)
| EvFileClosed (path content : string) (* the text written, at close *)
| EvShowInfo (title message : string)
| EvShowError (title message : string).

(* ================================================================== *)
(** * A state-and-exception monad

    A Python statement sequence run on a state [S]: it returns or raises,
    and in both cases the state it has reached is kept. *)

Definition M (S A : Type) : Type := S -> outcome A * S.

Definition ret {S A} (a : A) : M S A := fun s => (Return a, s).

Definition raise {S A} (e : exn) : M S A := fun s => (Raise e, s).

Definition bind {S A B} (m : M S A) (k : A -> M S B) : M S B :=
  fun s =>
    match m s with
    | (Return a, s') => k a s'
    | (Raise e, s') => (Raise e, s')
    end.

Declare Scope py_scope.
Delimit Scope py_scope with py.
Notation "x <- m ;; k" := (bind m (fun x => k))
  (at level 61, m at next level, right associativity) : py_scope.
Notation "m ;; k" := (bind m (fun _ => k))
  (at level 61, right associativity) : py_scope.
Local Open Scope py_scope.

(** [try: body except Exception as e: handler e] *)
Definition try_except {S A} (body : M S A) (handler : exn -> M S A) : M S A :=
  fun s =>
    match body s with
    | (Return a, s') => (Return a, s')
    | (Raise e, s') => handler e s'
    end.

(** [try: body finally: fin]: [fin] runs on both exits; an exception of
    [fin] replaces the outcome of [body]. *)
Definition try_finally {S A} (body : M S A) (fin : M S unit) : M S A :=
  fun s =>
    match body s with
    | (r, s') =>
        match fin s' with
        | (Return _, s'') => (r, s'')
        | (Raise e, s'') => (Raise e, s'')
        end
    end.

(** [for x in xs: body x] over a Python list. *)
Fixpoint for_each {S A} (xs : list A) (body : A -> M S unit) : M S unit :=
  match xs with
  | [] => ret tt
  | x :: xs' => body x ;; for_each xs' body
  end.

(** The outcome of an external call, lifted into the run. *)
Definition lift {S A} (o : outcome A) : M S A := fun s => (o, s).

(** [for x in it: body x] over an external iterator whose steps may raise. *)
Fixpoint for_in {S A} (it : list (outcome A)) (body : A -> M S unit)
  : M S unit :=
  match it with
  | [] => ret tt
  | step :: it' => x <- lift step ;; body x ;; for_in it' body
  end.

(* ================================================================== *)
(** * [analyze_excel_file] *)

(** The frame of [analyze_excel_file]: the [results] dict, the local
    [excel] ([None] until [create_excel_instance] has returned) and the log. *)
Record Frame := {
  results : Results;
  excel : option ExcelApp;
  trace : list Event
}.

(** An external call that is logged. *)
Definition call {A} (e : Event) (o : outcome A) : M Frame A :=
  fun f =>
    (o, {| results := results f; excel := excel f; trace := trace f ++ [e] |}).

(** A mutation of the [results] dict; the new value is logged. *)
Definition update_results (g : Results -> Results) : M Frame unit :=
  fun f =>
    let r := g (results f) in
    (Return tt,
     {| results := r; excel := excel f; trace := trace f ++ [EvResults r] |}).

Definition set_excel (x : option ExcelApp) : M Frame unit :=
  fun f =>
    (Return tt, {| results := results f; excel := x; trace := trace f |}).

Definition get_excel : M Frame (option ExcelApp) :=
  fun f => (Return (excel f), f).

Definition get_results : M Frame Results :=
  fun f => (Return (results f), f).

Definition trust_phrase : string :=
  "Programmatic access to Visual Basic Project is not trusted".

Definition trust_message : string :=
  "VBA access not enabled in Excel Trust Center".

Definition empty_module : string := "(Empty Module)".

Definition not_set : string := "Not Set".

(** The dict built for one worksheet (lines 49-53). *)
Definition sheet_info (sheet : Openpyxl.Worksheet) : SheetInfo.t :=
  {| SheetInfo.name := Openpyxl.title sheet;
     SheetInfo.has_content :=
       negb (String.eqb (Openpyxl.calculate_dimension sheet) "A1:A1");
     SheetInfo.print_area :=
       if Py.truthy (Openpyxl.print_area sheet)
       then match Openpyxl.print_area sheet with
            | Some s => s
            | None => not_set
            end
       else not_set |}.

(** The three reads of a component's record all succeed. *)
Definition readable (c : VBComponent) : bool :=
  match Name c, Type_ c, CodeModule c with
  | Return _, Return _, Return cm =>
      match CountOfLines cm with
      | Return _ => true
      | Raise _ => false
      end
  | _, _, _ => false
  end.

(** A loop over [steps] appends no record: there is no first step, or it
    raises, or the record of its component cannot be read. *)
Definition first_unrecorded (steps : list (outcome VBComponent)) : bool :=
  match steps with
  | [] => true
  | Raise _ :: _ => true
  | Return c :: _ => negb (readable c)
  end.

(** The dict built for one component (lines 63-67): three reads, in the
    order of the dict display. *)
Definition module_info (component : VBComponent) : M Frame ModuleInfo.t :=
  name <- lift (Name component) ;;
  type <- lift (Type_ component) ;;
  cm <- lift (CodeModule component) ;;
  n <- lift (CountOfLines cm) ;;
  ret {| ModuleInfo.name := name;
         ModuleInfo.type_ := type;
         ModuleInfo.code_lines := n |}.

(** The body of the loop over the components (lines 63-75). *)
Definition extract_component (component : VBComponent) : M Frame unit :=
  info <- module_info component ;;
  update_results (append_module info) ;;
  cm <- lift (CodeModule component) ;;
  n <- lift (CountOfLines cm) ;;
  if 0 <? n then
    cm1 <- lift (CodeModule component) ;;
    cm2 <- lift (CodeModule component) ;;
    n2 <- lift (CountOfLines cm2) ;;
    code <- lift (Lines cm1 1 n2) ;;
    name <- lift (Name component) ;;
    update_results (set_module_code name code)
  else
    name <- lift (Name component) ;;
    update_results (set_module_code name empty_module).

Section Analyze.

Context {os_path : OsPath}.
Variable w : World.

(** Lines 9-20. *)
Definition create_excel_instance : M Frame ExcelApp :=
  call EvCoInitialize (Return tt) ;;
  try_except
    (excel <- call (EvDispatch "Excel.Application")
                   (Dispatch w "Excel.Application") ;;
     call (EvSetDisplayAlerts false) (set_DisplayAlerts excel false) ;;
     call (EvSetVisible false) (set_Visible excel false) ;;
     ret excel)
    (fun e =>
       raise (Exception ("Could not create Excel instance: " ++ str_of_exn e))).

(** The [try] block (lines 59-77). *)
Definition extractor_body (file_path : string) : M Frame unit :=
  app <- create_excel_instance ;;
  set_excel (Some app) ;;
  wb_vba <- call (EvWorkbooksOpen (abspath file_path) true)
                 (Workbooks_Open app (abspath file_path) true) ;;
  components <- lift (VBProject_VBComponents wb_vba) ;;
  for_in components extract_component ;;
  call (EvClose false) (Close wb_vba false).

(** The [except Exception as e] block (lines 78-82). *)
Definition extractor_handler (e : exn) : M Frame unit :=
  if Py.contains trust_phrase (str_of_exn e)
  then update_results (set_vba_error trust_message)
  else update_results (set_vba_error (str_of_exn e)).

(** The [finally] block (lines 83-89). *)
Definition extractor_cleanup : M Frame unit :=
  x <- get_excel ;;
  match x with
  | Some app =>
      try_except (call EvQuit (Quit app)) (fun _ => ret tt) ;;
      call EvCoUninitialize (Return tt)
  | None => ret tt
  end.

(** The macro-extractor stage (lines 57-89). *)
Definition extractor_stage (file_path : string) : M Frame unit :=
  set_excel None ;;
  try_finally
    (try_except (extractor_body file_path) extractor_handler)
    extractor_cleanup.

(** The [results] dict as created at lines 35-42. *)
Definition initial_results (file_path : string) : Results :=
  {| filename := basename file_path;
     full_path := file_path;
     analysis_date := strftime "%Y-%m-%d %H:%M:%S" (now_at_analysis w);
     worksheets := [];
     modules := [];
     module_code := [];
     vba_error := None |}.

(** The frame once the [results] dict exists (after line 42). *)
Definition initial_frame (file_path : string) : Frame :=
  let r0 := initial_results file_path in
  {| results := r0; excel := None; trace := [EvResults r0] |}.

(** The structural reader (lines 44-54). *)
Definition reader_stage (file_path : string) : M Frame unit :=
  wb <- call (EvLoadWorkbook file_path) (load_workbook w file_path) ;;
  for_each (Openpyxl.worksheets wb)
           (fun sheet => update_results (append_worksheet (sheet_info sheet))).

(** Lines 44-91: everything after the [results] dict exists. *)
Definition analyze_body (file_path : string) : M Frame Results :=
  reader_stage file_path ;;
  extractor_stage file_path ;;
  get_results.

(** Lines 22-91.  The value is the outcome of the call and its log. *)
Definition analyze_excel_file (file_path : string)
  : outcome Results * list Event :=
  if negb (path_exists w file_path) then
    (Raise (FileNotFoundError ("File not found: " ++ file_path)), [])
  else
    let '(o, f) := analyze_body file_path (initial_frame file_path) in
    (o, trace f).

(** ** Vocabulary for the statements about the extractor *)

(** The frame in which the [try] block starts. *)
Definition frame_at_extractor (file_path : string) : Frame :=
  snd (reader_stage file_path (initial_frame file_path)).

(** The run of the [try] block: how it ends, and the frame it reaches. *)
Definition extraction (file_path : string) : outcome unit * Frame :=
  extractor_body file_path (frame_at_extractor file_path).

(** The steps of the enumeration the [try] block iterates over: those of
    the component collection when the session is set up, the workbook
    opens and the collection is reached; none otherwise. *)
Definition enumerated (file_path : string) : list (outcome VBComponent) :=
  match Dispatch w "Excel.Application" with
  | Return app =>
      match set_DisplayAlerts app false, set_Visible app false with
      | Return _, Return _ =>
          match Workbooks_Open app (abspath file_path) true with
          | Return wb_vba =>
              match VBProject_VBComponents wb_vba with
              | Return steps => steps
              | Raise _ => []
              end
          | Raise _ => []
          end
      | _, _ => []
      end
  | Raise _ => []
  end.

(** The run records no module at all. *)
Definition records_nothing (file_path : string) : bool :=
  first_unrecorded (enumerated file_path).

End Analyze.

(* ================================================================== *)
(** * [save_analysis_to_file] *)

(** The line break ["\n"]. *)
Definition nl : string := String (ascii_of_nat 10) "".

(** [f.write(s)] on the text buffer of the open file. *)
Definition write (s : string) : M string unit :=
  fun buf => (Return tt, buf ++ s).

(** Lines 107-109. *)
Definition write_banner : M string unit :=
  write (Py.repeat "=" 80 ++ nl) ;;
  write ("Excel File Analysis Report" ++ nl) ;;
  write (Py.repeat "=" 80 ++ nl ++ nl).

(** Lines 112-116. *)
Definition write_file_information (results : Results) : M string unit :=
  write ("FILE INFORMATION" ++ nl) ;;
  write (Py.repeat "-" 50 ++ nl) ;;
  write ("Filename: " ++ filename results ++ nl) ;;
  write ("Full Path: " ++ full_path results ++ nl) ;;
  write ("Analysis Date: " ++ analysis_date results ++ nl ++ nl).

(** Lines 119-126. *)
Definition write_worksheet_information (results : Results) : M string unit :=
  write ("WORKSHEET INFORMATION" ++ nl) ;;
  write (Py.repeat "-" 50 ++ nl) ;;
  write ("Total Worksheets: "
         ++ Py.str_of_int (Z.of_nat (length (worksheets results))) ++ nl) ;;
  for_each (worksheets results) (fun sheet =>
    write (nl ++ "Sheet Name: " ++ SheetInfo.name sheet ++ nl) ;;
    write ("Has Content: " ++ Py.str_of_bool (SheetInfo.has_content sheet)
           ++ nl) ;;
    write ("Print Area: " ++ SheetInfo.print_area sheet ++ nl)) ;;
  write nl.

(** Lines 130-132, the branch taken when ['vba_error'] is a key. *)
Definition write_vba_error (msg : string) : M string unit :=
  write ("VBA MODULE INFORMATION" ++ nl) ;;
  write (Py.repeat "-" 50 ++ nl) ;;
  write ("Error: " ++ msg ++ nl ++ nl).

(** Lines 134-141. *)
Definition write_module_information (results : Results) : M string unit :=
  write ("VBA MODULE INFORMATION" ++ nl) ;;
  write (Py.repeat "-" 50 ++ nl) ;;
  write ("Total Modules: "
         ++ Py.str_of_int (Z.of_nat (length (modules results))) ++ nl) ;;
  for_each (modules results) (fun module =>
    write (nl ++ "Module Name: " ++ ModuleInfo.name module ++ nl) ;;
    write ("Type: " ++ Py.str_of_int (ModuleInfo.type_ module) ++ nl) ;;
    write ("Code Lines: " ++ Py.str_of_int (ModuleInfo.code_lines module)
           ++ nl)) ;;
  write nl.

(** Lines 144-150. *)
Definition write_module_code (results : Results) : M string unit :=
  write ("VBA MODULE CODE" ++ nl) ;;
  write (Py.repeat "-" 50 ++ nl) ;;
  for_each (module_code results) (fun item =>
    let '(module_name, code) := item in
    write (nl ++ module_name ++ nl) ;;
    write (Py.repeat "-" (String.length module_name) ++ nl) ;;
    write (code ++ nl) ;;
    write nl).

(** The body of the [with] block (lines 106-150). *)
Definition write_report (results : Results) : M string unit :=
  write_banner ;;
  write_file_information results ;;
  write_worksheet_information results ;;
  match vba_error results with
  | Some msg => write_vba_error msg
  | None =>
      write_module_information results ;;
      write_module_code results
  end.

Section Save.

Context {os_path : OsPath}.
Variable w : World.

(** The output path (lines 97-103). *)
Definition output_path (results : Results) (output_dir : option string)
  : string :=
  let output_dir :=
    match output_dir with
    | None => dirname (full_path results)
    | Some d => d
    end in
  let timestamp := strftime "%Y%m%d_%H%M%S" (now_at_save w) in
  let base_name := fst (splitext (filename results)) in
  join output_dir (base_name ++ "_analysis_" ++ timestamp ++ ".txt").

(** Lines 93-152.  Opening the file may raise; the writes into the open
    file do not.  The file holds the buffer when the [with] block closes
    it. *)
Definition save_analysis_to_file (results : Results)
           (output_dir : option string) : outcome string * list Event :=
  let output_file := output_path results output_dir in
  match open_w w output_file with
  | Raise e => (Raise e, [EvOpen output_file "w" "utf-8"])
  | Return _ =>
      let '(_, text) := write_report results "" in
      (Return output_file,
       [EvOpen output_file "w" "utf-8"; EvFileClosed output_file text])
  end.

End Save.

(* ================================================================== *)
(** * [select_file] and [main] *)

(** A nested call: its log is spliced into the caller's. *)
Definition run {A} (c : outcome A * list Event) : M (list Event) A :=
  fun log => (fst c, (log ++ snd c)%list).

Definition emit (e : Event) : M (list Event) unit :=
  fun log => (Return tt, (log ++ [e])%list).

Section Main.

Context {os_path : OsPath}.
Variable w : World.

(** Lines 154-169. *)
Definition select_file : M (list Event) string :=
  emit EvAskOpenFilename ;;
  ret (askopenfilename w).

(** Lines 171-195.  [main] returns nothing; its value is its log. *)
Definition main : list Event :=
  snd (try_except
         (file_path <- select_file ;;
          if String.eqb file_path "" then
            emit (EvPrint "No file selected")
          else
            results <- run (analyze_excel_file w file_path) ;;
            output_file <- run (save_analysis_to_file w results None) ;;
            emit (EvShowInfo "Analysis Complete"
                    ("Analysis has been saved to:" ++ nl ++ output_file)))
         (fun e =>
            emit (EvShowError "Error"
                    ("An error occurred: " ++ str_of_exn e)))
         []).

End Main.

(* ================================================================== *)
(** * Reading a log *)

Definition is_snapshot (e : Event) : bool :=
  match e with
  | EvResults _ => true
  | _ => false
  end.

(** The calls of a log: everything except the snapshots. *)
Definition calls (log : list Event) : list Event :=
  filter (fun e => negb (is_snapshot e)) log.

(** The successive values of the [results] dict. *)
Fixpoint snapshots (log : list Event) : list Results :=
  match log with
  | [] => []
  | EvResults r :: log' => r :: snapshots log'
  | _ :: log' => snapshots log'
  end.

(** The paths opened for writing. *)
Fixpoint files_opened (log : list Event) : list string :=
  match log with
  | [] => []
  | EvOpen path _ _ :: log' => path :: files_opened log'
  | _ :: log' => files_opened log'
  end.

(** The message the [except] block stores for an exception text. *)
Definition classify (text : string) : string :=
  if Py.contains trust_phrase text then trust_message else text.

(** Every key of the mapping names an entry of the modules list. *)
Definition keys_recorded (r : Results) : Prop :=
  incl (Py.keys (module_code r)) (map ModuleInfo.name (modules r)).

(* ================================================================== *)
(** * Relations between the frames of a run *)

(** ** Frame relations carried along a run

    [evolves R m]: whatever way [m] ends, the frame it reaches is related
    by [R] to the frame it started from. *)

Definition evolves (R : Frame -> Frame -> Prop) {A} (m : M Frame A) : Prop :=
  forall f, R f (snd (m f)).

(** The reader's part of the dict is left alone. *)
Definition reader_fields_kept (f g : Frame) : Prop :=
  filename (results g) = filename (results f) /\
  full_path (results g) = full_path (results f) /\
  analysis_date (results g) = analysis_date (results f) /\
  worksheets (results g) = worksheets (results f).

(** The ['vba_error'] key is left alone. *)
Definition error_kept (f g : Frame) : Prop :=
  vba_error (results g) = vba_error (results f).

(** The whole dict is left alone. *)
Definition results_kept (f g : Frame) : Prop := results g = results f.

(** The log only grows. *)
Definition log_grows (f g : Frame) : Prop :=
  exists more, trace g = (trace f ++ more)%list.

(** A frame is consistent when the dict and all its logged values are. *)
Definition consistent (f : Frame) : Prop :=
  keys_recorded (results f) /\ Forall keys_recorded (snapshots (trace f)).

Definition consistency_kept (f g : Frame) : Prop :=
  consistent f -> consistent g.

(* ================================================================== *)
(** * What a completed step of the enumeration contributes *)

(** An enumeration step [step] that completes contributes the record
    [info] and the text [code]: the step yields a component, the three
    reads of the record succeed, and [code] is the source text read with
    [Lines(1, count)] when the count is positive, the placeholder
    otherwise. *)
Definition yields (step : outcome VBComponent)
           (entry : ModuleInfo.t * string) : Prop :=
  exists c cm,
    step = Return c /\
    Name c = Return (ModuleInfo.name (fst entry)) /\
    Type_ c = Return (ModuleInfo.type_ (fst entry)) /\
    CodeModule c = Return cm /\
    CountOfLines cm = Return (ModuleInfo.code_lines (fst entry)) /\
    if 0 <? ModuleInfo.code_lines (fst entry)
    then Lines cm 1 (ModuleInfo.code_lines (fst entry)) = Return (snd entry)
    else snd entry = empty_module.

(** The assignment [module_code[name] = code] for an entry. *)
Definition store (d : Py.dict string) (entry : ModuleInfo.t * string)
  : Py.dict string :=
  Py.dict_set d (ModuleInfo.name (fst entry)) (snd entry).

(** The modules list only grows. *)
Definition modules_grow (f g : Frame) : Prop :=
  exists more, modules (results g) = (modules (results f) ++ more)%list.

(* ================================================================== *)
(** * Vocabulary for the report *)

(** The text a sequence of writes produces on an empty buffer. *)
Definition text_of (m : M string unit) : string := snd (m "").

(** A sequence of writes only appends, and does not raise. *)
Definition appends (m : M string unit) : Prop :=
  forall buf, m buf = (Return tt, buf ++ text_of m).

(** A section heading: the title line and the dashed rule under it. *)
Definition heading (title : string) : string :=
  title ++ nl ++ Py.repeat "-" 50 ++ nl.

(** The calendar and clock fields are in the ranges of a [datetime]. *)
Definition valid_datetime (d : datetime) : Prop :=
  1 <= year d <= 9999 /\ 1 <= month d <= 12 /\ 1 <= day d <= 31 /\
  0 <= hour d <= 23 /\ 0 <= minute d <= 59 /\ 0 <= second d <= 59.

(** The local [excel] is left alone. *)
Definition excel_kept (f g : Frame) : Prop := excel g = excel f.

(* ================================================================== *)
(** * A concrete platform and concrete worlds, for the examples *)

Module Sample.

(** Windows-style paths with both separators; drive-relative forms such as
    [C:name] do not occur in the examples. *)
Definition is_sep (c : ascii) : bool :=
  Ascii.eqb c "\" || Ascii.eqb c "/".

Definition is_dot (c : ascii) : bool := Ascii.eqb c ".".

(** [(before, c, after)] around the last character [c] that satisfies [p]. *)
Fixpoint split_last (p : ascii -> bool) (s : string)
  : option (string * ascii * string) :=
  match s with
  | EmptyString => None
  | String c rest =>
      match split_last p rest with
      | Some (a, x, b) => Some (String c a, x, b)
      | None => if p c then Some ("", c, rest) else None
      end
  end.

Fixpoint rstrip (p : ascii -> bool) (s : string) : string :=
  match s with
  | EmptyString => ""
  | String c rest =>
      let r := rstrip p rest in
      if String.eqb r "" && p c then "" else String c r
  end.

Definition nt_split (p : string) : string * string :=
  match split_last is_sep p with
  | Some (a, c, b) =>
      let head := a ++ String c "" in
      ((if String.eqb (rstrip is_sep head) "" then head
        else rstrip is_sep head), b)
  | None => ("", p)
  end.

Definition nt_splitext (p : string) : string * string :=
  let '(dir, file) :=
    match split_last is_sep p with
    | Some (a, c, b) => (a ++ String c "", b)
    | None => ("", p)
    end in
  match split_last is_dot file with
  | Some (stem, _, ext) =>
      if String.eqb (rstrip is_dot stem) "" then (p, "")
      else (dir ++ stem, "." ++ ext)
  | None => (p, "")
  end.

Definition last_char (s : string) : option ascii :=
  match split_last (fun _ => true) s with
  | Some (_, c, _) => Some c
  | None => None
  end.

Definition nt_join (a b : string) : string :=
  match last_char a with
  | None => b
  | Some c =>
      if is_sep c || Ascii.eqb c ":" then a ++ b else a ++ "\" ++ b
  end.

#[export] Instance os_path : OsPath := {|
  basename := fun p => snd (nt_split p);
  dirname := fun p => fst (nt_split p);
  abspath := fun p => p;
  splitext := nt_splitext;
  join := nt_join
|}.

Definition clock : datetime :=
  {| year := 2024; month := 3; day := 7;
     hour := 9; minute := 5; second := 42 |}.

Definition two_sheets : Openpyxl.Workbook :=
  {| Openpyxl.worksheets :=
       [ {| Openpyxl.title := "Sheet1";
            Openpyxl.calculate_dimension := "A1:B2";
            Openpyxl.print_area := Some "A1:B2" |};
         {| Openpyxl.title := "Sheet2";
            Openpyxl.calculate_dimension := "A1:A1";
            Openpyxl.print_area := None |} ] |}.

(** A component all of whose reads succeed. *)
Definition component (name : string) (type count : Z) (code : string)
  : VBComponent :=
  {| Name := Return name;
     Type_ := Return type;
     CodeModule := Return {| CountOfLines := Return count;
                             Lines := fun _ _ => Return code |} |}.

(** A component whose source text cannot be read. *)
Definition unreadable (name : string) (type count : Z) (msg : string)
  : VBComponent :=
  {| Name := Return name;
     Type_ := Return type;
     CodeModule := Return {| CountOfLines := Return count;
                             Lines := fun _ _ => Raise (Exception msg) |} |}.

(** A session that starts and opens the workbook; [project] is what the
    access to the components gives. *)
Definition app (project : outcome (list (outcome VBComponent))) : ExcelApp :=
  {| set_DisplayAlerts := fun _ => Return tt;
     set_Visible := fun _ => Return tt;
     Workbooks_Open := fun _ _ =>
       Return {| VBProject_VBComponents := project;
                 Close := fun _ => Return tt |};
     Quit := Return tt |}.

Definition book : string := "C:\docs\book.xlsm".

(** A world in which [book] exists and holds [two_sheets]; [dispatch] is
    the outcome of starting the automation session. *)
Definition world (dispatch : outcome ExcelApp) (picked : string) : World :=
  {| path_exists := fun p => String.eqb p book;
     load_workbook := fun _ => Return two_sheets;
     Dispatch := fun _ => dispatch;
     now_at_analysis := clock;
     now_at_save := clock;
     askopenfilename := picked;
     open_w := fun _ => Return tt |}.

Definition Module1 : VBComponent :=
  component "Module1" 1 2 ("Sub A()" ++ nl ++ "End Sub").

Definition Sheet1 : VBComponent := component "Sheet1" 100 0 "".

(** Macro access permitted, two components. *)
Definition trusted : World :=
  world (Return (app (Return [Return Module1; Return Sheet1]))) book.

(** Macro access denied by the trust policy. *)
Definition denied : World :=
  world (Return (app (Raise (Exception
    ("(-2147352567, 'Exception occurred.', (0, 'Microsoft Excel', '"
     ++ trust_phrase ++ "', 'xlmain11.chm', 0, -2146827284), None)")))))
    book.

(** The automation session cannot be started. *)
Definition no_excel : World :=
  world (Raise (Exception "Invalid class string")) book.

(** The second component's source text cannot be read. *)
Definition broken : World :=
  world (Return (app (Return
    [Return Sheet1; Return (unreadable "Module1" 1 2 "Call was rejected")])))
    book.

(** The session starts, but hiding its window fails. *)
Definition half_started : World :=
  world (Return
    {| set_DisplayAlerts := fun _ => Return tt;
       set_Visible := fun _ =>
         Raise (Exception "Unable to set the Visible property");
       Workbooks_Open := fun _ _ =>
         Return {| VBProject_VBComponents := Return [];
                   Close := fun _ => Return tt |};
       Quit := Return tt |}) book.

End Sample.

(* ================================================================== *)
(** * Vocabulary for the whole run *)

(** The calls of the log are left alone (only snapshots are added). *)
Definition calls_kept (f g : Frame) : Prop :=
  calls (trace g) = calls (trace f).

(** The calls [analyze_excel_file] may make on [file_path], whose absolute
    form is [abs]: load the workbook, start a hidden and silent session,
    open the workbook read-only, close it without saving, quit. *)
Definition session_call (file_path abs : string) (e : Event) : Prop :=
  In e [EvLoadWorkbook file_path; EvCoInitialize;
        EvDispatch "Excel.Application";
        EvSetDisplayAlerts false; EvSetVisible false;
        EvWorkbooksOpen abs true; EvClose false;
        EvQuit; EvCoUninitialize].

(** Every call of the log satisfies [P]. *)
Definition calls_within (P : Event -> Prop) (f g : Frame) : Prop :=
  Forall P (calls (trace f)) -> Forall P (calls (trace g)).

(** The two closing dialogs of [main]. *)
Definition is_notice (e : Event) : bool :=
  match e with
  | EvShowInfo _ _ => true
  | EvShowError _ _ => true
  | _ => false
  end.

(** Two more worlds for the examples. *)
Module Cases.

(** The workbook exists but is not a workbook. *)
Definition corrupt : World :=
  {| path_exists := fun p => String.eqb p Sample.book;
     load_workbook := fun _ => Raise (Exception "File is not a zip file");
     Dispatch := fun _ => Raise (Exception "unused");
     now_at_analysis := Sample.clock;
     now_at_save := Sample.clock;
     askopenfilename := Sample.book;
     open_w := fun _ => Return tt |}.

(** Macro access is permitted, but the report cannot be created. *)
Definition read_only_folder : World :=
  {| path_exists := fun p => String.eqb p Sample.book;
     load_workbook := fun _ => Return Sample.two_sheets;
     Dispatch := fun _ =>
       Return (Sample.app (Return [Return Sample.Module1;
                                   Return Sample.Sheet1]));
     now_at_analysis := Sample.clock;
     now_at_save := Sample.clock;
     askopenfilename := Sample.book;
     open_w := fun _ => Raise (Exception "Permission denied") |}.

End Cases.

(* ================================================================== *)
(** * Reasoning about runs *)

Section Evolves.

Variable R : Frame -> Frame -> Prop.
Hypothesis R_refl : forall f, R f f.
Hypothesis R_trans : forall f g h, R f g -> R g h -> R f h.

Lemma evolves_ret A (a : A) : evolves R (ret a).
Proof. intros f; apply R_refl. Qed.

Lemma evolves_raise A (e : exn) : evolves R (@raise Frame A e).
Proof. intros f; apply R_refl. Qed.

Lemma evolves_lift A (o : outcome A) : evolves R (lift o).
Proof. intros f; apply R_refl. Qed.

Lemma evolves_get_excel : evolves R get_excel.
Proof. intros f; apply R_refl. Qed.

Lemma evolves_get_results : evolves R get_results.
Proof. intros f; apply R_refl. Qed.

Lemma evolves_bind A B (m : M Frame A) (k : A -> M Frame B) :
  evolves R m -> (forall a, evolves R (k a)) -> evolves R (bind m k).
Proof.
  intros Hm Hk f. unfold bind.
  specialize (Hm f). destruct (m f) as [[a | e] f1]; simpl in *.
  - eapply R_trans; [exact Hm | apply Hk].
  - exact Hm.
Qed.

Lemma evolves_try_except A (m : M Frame A) (h : exn -> M Frame A) :
  evolves R m -> (forall e, evolves R (h e)) -> evolves R (try_except m h).
Proof.
  intros Hm Hh f. unfold try_except.
  specialize (Hm f). destruct (m f) as [[a | e] f1]; simpl in *.
  - exact Hm.
  - eapply R_trans; [exact Hm | apply Hh].
Qed.

Lemma evolves_try_finally A (m : M Frame A) (fin : M Frame unit) :
  evolves R m -> evolves R fin -> evolves R (try_finally m fin).
Proof.
  intros Hm Hfin f. unfold try_finally.
  specialize (Hm f). destruct (m f) as [r f1]; simpl in *.
  specialize (Hfin f1). destruct (fin f1) as [[u | e] f2]; simpl in *;
    eapply R_trans; eassumption.
Qed.

Lemma evolves_for_each A (xs : list A) (body : A -> M Frame unit) :
  (forall x, evolves R (body x)) -> evolves R (for_each xs body).
Proof.
  intros Hb. induction xs as [| x xs IH]; simpl.
  - apply evolves_ret.
  - apply evolves_bind; auto.
Qed.

Lemma evolves_for_in A (it : list (outcome A)) (body : A -> M Frame unit) :
  (forall x, evolves R (body x)) -> evolves R (for_in it body).
Proof.
  intros Hb. induction it as [| step it IH]; simpl.
  - apply evolves_ret.
  - apply evolves_bind; [apply evolves_lift |].
    intros x. apply evolves_bind; auto.
Qed.

(** What is left to show for a given relation: the three frame updates. *)
Hypothesis R_call :
  forall A (e : Event) (o : outcome A),
    is_snapshot e = false -> evolves R (call e o).
Hypothesis R_excel : forall x, evolves R (set_excel x).
Hypothesis R_append : forall i, evolves R (update_results (append_module i)).
Hypothesis R_code :
  forall k code, evolves R (update_results (set_module_code k code)).

Lemma evolves_module_info c : evolves R (module_info c).
Proof.
  unfold module_info.
  repeat (apply evolves_bind; [apply evolves_lift | intros ?]).
  apply evolves_ret.
Qed.

Lemma evolves_extract_component c : evolves R (extract_component c).
Proof.
  unfold extract_component.
  apply evolves_bind; [apply evolves_module_info | intros info].
  apply evolves_bind; [apply R_append | intros _].
  repeat (apply evolves_bind; [apply evolves_lift | intros ?]).
  destruct (0 <? _).
  - repeat (apply evolves_bind; [apply evolves_lift | intros ?]).
    apply R_code.
  - repeat (apply evolves_bind; [apply evolves_lift | intros ?]).
    apply R_code.
Qed.

Hypothesis R_component : forall c, evolves R (extract_component c).

Context {os_path : OsPath}.
Variable w : World.

Lemma evolves_create_excel_instance : evolves R (create_excel_instance w).
Proof.
  unfold create_excel_instance.
  apply evolves_bind; [now apply R_call | intros _].
  apply evolves_try_except.
  - repeat (apply evolves_bind; [now apply R_call | intros ?]).
    apply evolves_ret.
  - intros e. apply evolves_raise.
Qed.

Lemma evolves_extractor_body p : evolves R (extractor_body w p).
Proof.
  unfold extractor_body.
  apply evolves_bind; [apply evolves_create_excel_instance | intros app].
  apply evolves_bind; [apply R_excel | intros _].
  apply evolves_bind; [now apply R_call | intros wb_vba].
  apply evolves_bind; [apply evolves_lift | intros steps].
  apply evolves_bind; [| intros _; now apply R_call].
  apply evolves_for_in. apply R_component.
Qed.

Lemma evolves_extractor_cleanup : evolves R extractor_cleanup.
Proof.
  unfold extractor_cleanup.
  apply evolves_bind; [apply evolves_get_excel | intros [app |]].
  - apply evolves_bind; [| intros _; now apply R_call].
    apply evolves_try_except; [now apply R_call | intros _; apply evolves_ret].
  - apply evolves_ret.
Qed.

Hypothesis R_error :
  forall msg, evolves R (update_results (set_vba_error msg)).

Lemma evolves_extractor_handler e : evolves R (extractor_handler e).
Proof.
  unfold extractor_handler. destruct (Py.contains _ _); apply R_error.
Qed.

Lemma evolves_extractor_stage p : evolves R (extractor_stage w p).
Proof.
  unfold extractor_stage.
  apply evolves_bind; [apply R_excel | intros _].
  apply evolves_try_finally.
  - apply evolves_try_except.
    + apply evolves_extractor_body.
    + apply evolves_extractor_handler.
  - apply evolves_extractor_cleanup.
Qed.

Hypothesis R_sheet :
  forall i, evolves R (update_results (append_worksheet i)).

Lemma evolves_reader_stage p : evolves R (reader_stage w p).
Proof.
  unfold reader_stage.
  apply evolves_bind; [now apply R_call | intros wb].
  apply evolves_for_each. intros sheet. apply R_sheet.
Qed.

Lemma evolves_analyze_body p : evolves R (analyze_body w p).
Proof.
  unfold analyze_body.
  apply evolves_bind; [apply evolves_reader_stage | intros _].
  apply evolves_bind; [apply evolves_extractor_stage | intros _].
  apply evolves_get_results.
Qed.

End Evolves.

(** ** Logs and keys *)

Lemma snapshots_app l1 l2 :
  snapshots (l1 ++ l2) = (snapshots l1 ++ snapshots l2)%list.
Proof.
  induction l1 as [| e l1 IH]; simpl; [reflexivity |].
  destruct e; simpl; rewrite ?IH; reflexivity.
Qed.

Lemma keys_dict_set (d : Py.dict string) k v x :
  In x (Py.keys (Py.dict_set d k v)) <-> In x (Py.keys d) \/ x = k.
Proof.
  induction d as [| [k' v'] d IH]; simpl.
  - intuition.
  - destruct (String.eqb_spec k' k) as [-> | Hne]; simpl.
    + intuition.
    + rewrite IH. intuition.
Qed.

Lemma keys_recorded_append i r :
  keys_recorded r -> keys_recorded (append_module i r).
Proof.
  unfold keys_recorded; simpl. intros H x Hx.
  rewrite map_app. apply in_or_app. left. auto.
Qed.

Lemma keys_recorded_code k code r :
  keys_recorded r -> In k (map ModuleInfo.name (modules r)) ->
  keys_recorded (set_module_code k code r).
Proof.
  unfold keys_recorded; simpl. intros H Hk x Hx.
  apply keys_dict_set in Hx. destruct Hx as [Hx | ->]; auto.
Qed.

Lemma keys_recorded_error msg r :
  keys_recorded r -> keys_recorded (set_vba_error msg r).
Proof. unfold keys_recorded; simpl. auto. Qed.

Lemma keys_recorded_worksheet i r :
  keys_recorded r -> keys_recorded (append_worksheet i r).
Proof. unfold keys_recorded; simpl. auto. Qed.

(** ** The relations are preorders *)

Ltac outcome_cases :=
  repeat match goal with
  | |- context [match ?o with Return _ => _ | Raise _ => _ end] =>
      destruct o eqn:?; simpl
  end.

Lemma reader_fields_kept_refl f : reader_fields_kept f f.
Proof. repeat split. Qed.

Lemma reader_fields_kept_trans f g h :
  reader_fields_kept f g -> reader_fields_kept g h -> reader_fields_kept f h.
Proof.
  unfold reader_fields_kept. intros (a & b & c & d) (a' & b' & c' & d').
  repeat split; congruence.
Qed.

Lemma error_kept_refl f : error_kept f f.
Proof. reflexivity. Qed.

Lemma error_kept_trans f g h : error_kept f g -> error_kept g h -> error_kept f h.
Proof. unfold error_kept. congruence. Qed.

Lemma results_kept_refl f : results_kept f f.
Proof. reflexivity. Qed.

Lemma results_kept_trans f g h :
  results_kept f g -> results_kept g h -> results_kept f h.
Proof. unfold results_kept. congruence. Qed.

Lemma consistency_kept_refl f : consistency_kept f f.
Proof. intros H; exact H. Qed.

Lemma consistency_kept_trans f g h :
  consistency_kept f g -> consistency_kept g h -> consistency_kept f h.
Proof. unfold consistency_kept. auto. Qed.

Lemma snapshots_snoc P log r :
  Forall P (snapshots log) -> P r ->
  Forall P (snapshots (log ++ [EvResults r])).
Proof.
  intros Hl Hr. rewrite snapshots_app. apply Forall_app. split; [exact Hl |].
  simpl. constructor; [exact Hr | constructor].
Qed.

Lemma consistent_snapshot r x log :
  keys_recorded r -> Forall keys_recorded (snapshots log) ->
  consistent {| results := r; excel := x; trace := log ++ [EvResults r] |}.
Proof.
  intros Hr Hl. split; simpl; [exact Hr |]. apply snapshots_snoc; assumption.
Qed.

(** The component step keeps the frame consistent: the name stored as a
    key is the name appended to the list just before. *)
Lemma consistency_kept_extract_component c :
  evolves consistency_kept (extract_component c).
Proof.
  intros f [Hr Hl].
  assert (Happ : forall i, keys_recorded (append_module i (results f)))
    by (intros i; apply keys_recorded_append, Hr).
  unfold extract_component, module_info, update_results, bind, lift, ret.
  outcome_cases; try (split; assumption);
    try (apply consistent_snapshot; auto).
  all: match goal with
       | |- context [0 <? ?n] => destruct (0 <? n); simpl
       end.
  all: outcome_cases.
  all: try (apply consistent_snapshot; auto).
  all: try congruence.
  all: try (apply snapshots_snoc; auto).
  all: apply keys_recorded_code; auto; simpl;
    rewrite map_app; apply in_or_app; right; simpl; left; congruence.
Qed.

Lemma consistency_kept_call A (e : Event) (o : outcome A) :
  is_snapshot e = false -> evolves consistency_kept (call e o).
Proof.
  intros He f [Hr Hl]. split; simpl; [exact Hr |].
  rewrite snapshots_app. apply Forall_app. split; [exact Hl |].
  destruct e; simpl; try constructor; discriminate.
Qed.

Lemma consistency_kept_set_excel x : evolves consistency_kept (set_excel x).
Proof. intros f Hf. exact Hf. Qed.

Lemma consistency_kept_update g :
  (forall r, keys_recorded r -> keys_recorded (g r)) ->
  evolves consistency_kept (update_results g).
Proof.
  intros Hg f [Hr Hl]. apply consistent_snapshot; auto.
Qed.

Section Consistency.

Context {os_path : OsPath}.
Variable w : World.

Lemma consistent_initial_frame p : consistent (initial_frame w p).
Proof.
  split; simpl.
  - intros x [].
  - constructor; [intros x [] | constructor].
Qed.

Lemma consistency_kept_analyze_body p :
  evolves consistency_kept (analyze_body w p).
Proof.
  apply evolves_analyze_body.
  - apply consistency_kept_refl.
  - apply consistency_kept_trans.
  - apply consistency_kept_call.
  - apply consistency_kept_set_excel.
  - apply consistency_kept_extract_component.
  - intros msg. apply consistency_kept_update.
    intros r. apply keys_recorded_error.
  - intros i. apply consistency_kept_update.
    intros r. apply keys_recorded_worksheet.
Qed.

End Consistency.

(* ================================================================== *)
(** * The invariant of the enumeration *)

(** C9.  At every point of a run of [analyze_excel_file], enumeration
    included and whether or not an exception interrupts it, each key of
    the [module_code] mapping is the name of an entry of the [modules]
    list: this holds of every value the [results] dict takes, from its
    creation to the end of the call.  (The list entry is appended before
    the key is stored.) *)
Theorem module_code_keys_always_recorded
  {os_path : OsPath} (w : World) (file_path : string) :
  Forall keys_recorded (snapshots (snd (analyze_excel_file w file_path))).
Proof.
  unfold analyze_excel_file.
  destruct (negb (path_exists w file_path)); simpl; [constructor |].
  pose proof (consistency_kept_analyze_body w file_path
                (consistent_initial_frame w file_path)) as [_ H].
  destruct (analyze_body w file_path (initial_frame w file_path)) as [o f].
  exact H.
Qed.

(** ** The stages, one by one *)

Lemma results_kept_call A (e : Event) (o : outcome A) :
  is_snapshot e = false -> evolves results_kept (call e o).
Proof. intros _ f. reflexivity. Qed.

Lemma excel_none_set f : excel f = None -> snd (set_excel None f) = f.
Proof. destruct f; simpl; intros ->; reflexivity. Qed.

(** The worksheet loop returns, and appends one entry per sheet. *)
Lemma worksheet_loop sheets : forall f,
  exists log,
    for_each sheets
      (fun sheet => update_results (append_worksheet (sheet_info sheet))) f
    = (Return tt,
       {| results :=
            {| filename := filename (results f);
               full_path := full_path (results f);
               analysis_date := analysis_date (results f);
               worksheets := worksheets (results f) ++ map sheet_info sheets;
               modules := modules (results f);
               module_code := module_code (results f);
               vba_error := vba_error (results f) |};
          excel := excel f;
          trace := trace f ++ log |}).
Proof.
  induction sheets as [| sheet sheets IH]; intros f; simpl.
  - exists []. unfold ret. rewrite !app_nil_r.
    destruct f as [[] ? ?]; reflexivity.
  - unfold bind at 1. simpl.
    edestruct IH as [log ->]. simpl.
    eexists. rewrite <- !app_assoc. simpl. reflexivity.
Qed.

Section Stages.

Context {os_path : OsPath}.
Variable w : World.
Variable file_path : string.

(** The reader stage on a workbook that loads. *)
Lemma reader_stage_loaded wb :
  load_workbook w file_path = Return wb ->
  fst (reader_stage w file_path (initial_frame w file_path)) = Return tt /\
  excel (frame_at_extractor w file_path) = None /\
  results (frame_at_extractor w file_path) =
    {| filename := basename file_path;
       full_path := file_path;
       analysis_date := strftime "%Y-%m-%d %H:%M:%S" (now_at_analysis w);
       worksheets := map sheet_info (Openpyxl.worksheets wb);
       modules := [];
       module_code := [];
       vba_error := None |}.
Proof.
  intros Hload. unfold frame_at_extractor, reader_stage, bind, call.
  rewrite Hload.
  edestruct worksheet_loop as [log ->]. simpl. auto.
Qed.

(** The reader stage on a workbook that does not load. *)
Lemma reader_stage_failed e :
  load_workbook w file_path = Raise e ->
  fst (reader_stage w file_path (initial_frame w file_path)) = Raise e.
Proof.
  intros Hload. unfold reader_stage, bind, call. rewrite Hload. reflexivity.
Qed.

(** The cleanup never raises and leaves the dict alone. *)
Lemma extractor_cleanup_returns f :
  fst (extractor_cleanup f) = Return tt.
Proof.
  unfold extractor_cleanup, bind, get_excel, try_except, call, ret.
  destruct (excel f) as [app |]; simpl; [| reflexivity].
  destruct (Quit app); reflexivity.
Qed.

Lemma extractor_cleanup_results f :
  results (snd (extractor_cleanup f)) = results f.
Proof.
  apply (evolves_extractor_cleanup results_kept_refl results_kept_trans).
  apply results_kept_call.
Qed.

(** The handler never raises and stores the classified text. *)
Lemma extractor_handler_run e f :
  fst (extractor_handler e f) = Return tt /\
  results (snd (extractor_handler e f)) =
    set_vba_error (classify (str_of_exn e)) (results f).
Proof.
  unfold extractor_handler, classify.
  destruct (Py.contains trust_phrase (str_of_exn e)); simpl; auto.
Qed.

(** The stage as a whole: it always returns; the dict it leaves is the one
    the [try] block reached, with the error text added when it raised. *)
Lemma extractor_stage_run f :
  excel f = None ->
  fst (extractor_stage w file_path f) = Return tt /\
  results (snd (extractor_stage w file_path f)) =
    match fst (extractor_body w file_path f) with
    | Return _ => results (snd (extractor_body w file_path f))
    | Raise e =>
        set_vba_error (classify (str_of_exn e))
                      (results (snd (extractor_body w file_path f)))
    end.
Proof.
  intros Hex. unfold extractor_stage, bind.
  pose proof (excel_none_set f Hex) as Hset.
  destruct (set_excel None f) as [[[] | e0] f0] eqn:Hs;
    [| discriminate Hs].
  simpl in Hset. subst f0.
  unfold try_finally, try_except.
  destruct (extractor_body w file_path f) as [[[] | e] f2]; simpl.
  - pose proof (extractor_cleanup_returns f2) as Hc.
    pose proof (extractor_cleanup_results f2) as Hr.
    destruct (extractor_cleanup f2) as [[[] | e'] f3]; simpl in *;
      [auto | discriminate].
  - destruct (extractor_handler_run e f2) as [Hh1 Hh2].
    destruct (extractor_handler e f2) as [[[] | e1] f3]; simpl in *;
      [| discriminate].
    pose proof (extractor_cleanup_returns f3) as Hc.
    pose proof (extractor_cleanup_results f3) as Hr.
    destruct (extractor_cleanup f3) as [[[] | e'] f4]; simpl in *;
      [split; congruence | discriminate].
Qed.

(** The call as a whole. *)
Lemma analyze_excel_file_missing :
  path_exists w file_path = false ->
  analyze_excel_file w file_path =
    (Raise (FileNotFoundError ("File not found: " ++ file_path)), []).
Proof. intros H. unfold analyze_excel_file. rewrite H. reflexivity. Qed.

Lemma analyze_excel_file_not_loaded e :
  path_exists w file_path = true ->
  load_workbook w file_path = Raise e ->
  fst (analyze_excel_file w file_path) = Raise e.
Proof.
  intros Hex Hload. unfold analyze_excel_file. rewrite Hex. simpl.
  unfold analyze_body, bind.
  pose proof (reader_stage_failed Hload) as H.
  destruct (reader_stage w file_path (initial_frame w file_path))
    as [[[] | e'] f]; simpl in *; congruence.
Qed.

Lemma analyze_excel_file_loaded wb :
  path_exists w file_path = true ->
  load_workbook w file_path = Return wb ->
  exists log,
    analyze_excel_file w file_path =
      (Return
         match fst (extraction w file_path) with
         | Return _ => results (snd (extraction w file_path))
         | Raise e =>
             set_vba_error (classify (str_of_exn e))
                           (results (snd (extraction w file_path)))
         end,
       log).
Proof.
  intros Hex Hload. unfold analyze_excel_file. rewrite Hex. simpl.
  destruct (reader_stage_loaded Hload) as (Hr & Hx & _).
  unfold extraction, frame_at_extractor in *.
  unfold analyze_body, bind, get_results.
  destruct (reader_stage w file_path (initial_frame w file_path))
    as [[[] | e'] f1]; simpl in *; [| discriminate].
  destruct (extractor_stage_run f1 Hx) as [Hs1 Hs2].
  destruct (extractor_stage w file_path f1) as [[[] | e'] f3]; simpl in *;
    [| discriminate].
  rewrite Hs2. eexists. reflexivity.
Qed.

End Stages.

(** ** The enumeration *)

Lemma reader_fields_kept_update g :
  (forall r, filename (g r) = filename r /\ full_path (g r) = full_path r /\
             analysis_date (g r) = analysis_date r /\
             worksheets (g r) = worksheets r) ->
  evolves reader_fields_kept (update_results g).
Proof. intros Hg f. apply Hg. Qed.

Lemma reader_fields_kept_extractor_body {os_path : OsPath} (w : World) p :
  evolves reader_fields_kept (extractor_body w p).
Proof.
  apply evolves_extractor_body.
  - apply reader_fields_kept_refl.
  - apply reader_fields_kept_trans.
  - intros A e o _ f. repeat split.
  - intros x f. repeat split.
  - intros c. apply evolves_extract_component.
    + apply reader_fields_kept_refl.
    + apply reader_fields_kept_trans.
    + intros i. apply reader_fields_kept_update. intros r. repeat split.
    + intros k code. apply reader_fields_kept_update. intros r. repeat split.
Qed.

Lemma error_kept_extractor_body {os_path : OsPath} (w : World) p :
  evolves error_kept (extractor_body w p).
Proof.
  apply evolves_extractor_body.
  - apply error_kept_refl.
  - apply error_kept_trans.
  - intros A e o _ f. reflexivity.
  - intros x f. reflexivity.
  - intros c. apply evolves_extract_component.
    + apply error_kept_refl.
    + apply error_kept_trans.
    + intros i f. reflexivity.
    + intros k code f. reflexivity.
Qed.

(** One step of the loop that completes. *)
Lemma extract_component_returned c f g :
  extract_component c f = (Return tt, g) ->
  exists entry,
    yields (Return c) entry /\
    modules (results g) = (modules (results f) ++ [fst entry])%list /\
    module_code (results g) = store (module_code (results f)) entry.
Proof.
  unfold extract_component, module_info, update_results, bind, lift, ret.
  destruct (Name c) as [name |] eqn:Hn; simpl; [| discriminate].
  destruct (Type_ c) as [type |] eqn:Ht; simpl; [| discriminate].
  destruct (CodeModule c) as [cm |] eqn:Hcm; simpl; [| discriminate].
  destruct (CountOfLines cm) as [n |] eqn:Hc; simpl; [| discriminate].
  destruct (0 <? n) eqn:Hpos; simpl.
  - destruct (Lines cm 1 n) as [code |] eqn:Hl; simpl; [| discriminate].
    intros H. injection H as <-.
    exists ({| ModuleInfo.name := name; ModuleInfo.type_ := type;
               ModuleInfo.code_lines := n |}, code).
    split; [| split; reflexivity].
    exists c, cm. simpl. rewrite Hpos. auto 6.
  - intros H. injection H as <-.
    exists ({| ModuleInfo.name := name; ModuleInfo.type_ := type;
               ModuleInfo.code_lines := n |}, empty_module).
    split; [| split; reflexivity].
    exists c, cm. simpl. rewrite Hpos. auto 6.
Qed.

(** The loop that runs to its end. *)
Lemma enumeration_returned steps : forall f g,
  for_in steps extract_component f = (Return tt, g) ->
  exists entries,
    Forall2 yields steps entries /\
    modules (results g) = (modules (results f) ++ map fst entries)%list /\
    module_code (results g) = fold_left store entries (module_code (results f)).
Proof.
  induction steps as [| step steps IH]; intros f g; simpl.
  - intros H. injection H as <-. exists []. simpl.
    rewrite app_nil_r. auto.
  - unfold bind at 1, lift at 1.
    destruct step as [c |]; [| discriminate].
    unfold bind at 1.
    destruct (extract_component c f) as [[[] | e] f1] eqn:Hstep;
      [| discriminate].
    intros Hrest.
    apply extract_component_returned in Hstep as (entry & Hy & Hm & Hc).
    apply IH in Hrest as (entries & Hys & Hms & Hcs).
    exists (entry :: entries). simpl. split; [constructor; assumption |].
    rewrite Hms, Hm, Hcs, Hc, <- app_assoc. auto.
Qed.

(** The session set-up leaves the dict alone. *)
Lemma results_kept_create_excel_instance {os_path : OsPath} (w : World) :
  evolves results_kept (create_excel_instance w).
Proof.
  apply evolves_create_excel_instance.
  - apply results_kept_refl.
  - apply results_kept_trans.
  - apply results_kept_call.
Qed.

Lemma create_excel_instance_returned {os_path : OsPath} (w : World) app f g :
  create_excel_instance w f = (Return app, g) ->
  Dispatch w "Excel.Application" = Return app /\
  set_DisplayAlerts app false = Return tt /\
  set_Visible app false = Return tt.
Proof.
  unfold create_excel_instance, bind, try_except, call, ret, raise. simpl.
  destruct (Dispatch w "Excel.Application") as [a |]; [| discriminate].
  destruct (set_DisplayAlerts a false) as [[] |] eqn:Ha; [| discriminate].
  destruct (set_Visible a false) as [[] |] eqn:Hv; [| discriminate].
  intros H. injection H as <- <-. auto.
Qed.

(** The [try] block that runs to its end has recorded every step of the
    enumeration. *)
Lemma extractor_body_returned {os_path : OsPath} (w : World) p f g :
  extractor_body w p f = (Return tt, g) ->
  exists entries,
    Forall2 yields (enumerated w p) entries /\
    modules (results g) = (modules (results f) ++ map fst entries)%list /\
    module_code (results g) = fold_left store entries (module_code (results f)).
Proof.
  unfold extractor_body. unfold bind at 1.
  pose proof (results_kept_create_excel_instance w f) as Hkept.
  destruct (create_excel_instance w f) as [[app |] f1] eqn:Hcreate;
    [| discriminate].
  apply create_excel_instance_returned in Hcreate as (Hd & Ha & Hv).
  unfold results_kept in Hkept. simpl in Hkept.
  unfold enumerated. rewrite Hd, Ha, Hv.
  unfold bind, set_excel, call, lift. simpl.
  destruct (Workbooks_Open app (abspath p) true) as [wb_vba |];
    [| discriminate].
  destruct (VBProject_VBComponents wb_vba) as [steps |]; [| discriminate].
  destruct (for_in steps extract_component _) as [[[] | e] f2] eqn:Hloop;
    [| discriminate].
  apply enumeration_returned in Hloop as (entries & Hys & Hms & Hcs).
  simpl in Hms, Hcs. rewrite Hkept in Hms, Hcs.
  destruct (Close wb_vba false) as [[] |]; [| discriminate].
  intros H. injection H as <-. simpl.
  exists entries. auto.
Qed.

(** ** The mapping after a completed enumeration *)

Lemma keys_fold_store entries : forall d x,
  In x (Py.keys (fold_left store entries d)) <->
  In x (Py.keys d) \/ In x (map ModuleInfo.name (map fst entries)).
Proof.
  induction entries as [| e entries IH]; intros d x; simpl.
  - intuition.
  - rewrite IH. unfold store. rewrite keys_dict_set. intuition.
Qed.

Lemma dict_get_set_same (d : Py.dict string) k v :
  Py.dict_get (Py.dict_set d k v) k = Some v.
Proof.
  induction d as [| [k' v'] d IH]; simpl.
  - rewrite String.eqb_refl. reflexivity.
  - destruct (String.eqb k' k) eqn:E; simpl; rewrite E; auto.
Qed.

Lemma dict_get_set_other (d : Py.dict string) k v k' :
  k <> k' -> Py.dict_get (Py.dict_set d k v) k' = Py.dict_get d k'.
Proof.
  intros Hne. induction d as [| [k0 v0] d IH]; simpl.
  - destruct (String.eqb_spec k k'); [contradiction | reflexivity].
  - destruct (String.eqb_spec k0 k) as [-> | Hk]; simpl.
    + destruct (String.eqb_spec k k'); [contradiction | reflexivity].
    + destruct (String.eqb k0 k'); auto.
Qed.

Lemma dict_get_fold_other entries : forall d k,
  ~ In k (map ModuleInfo.name (map fst entries)) ->
  Py.dict_get (fold_left store entries d) k = Py.dict_get d k.
Proof.
  induction entries as [| e entries IH]; intros d k Hk; simpl in *.
  - reflexivity.
  - rewrite IH by tauto. unfold store. apply dict_get_set_other. tauto.
Qed.

Lemma dict_get_fold_store entries : forall d e,
  NoDup (map ModuleInfo.name (map fst entries)) ->
  In e entries ->
  Py.dict_get (fold_left store entries d) (ModuleInfo.name (fst e))
  = Some (snd e).
Proof.
  induction entries as [| e0 entries IH]; intros d e Hnd Hin; simpl in *.
  - contradiction.
  - inversion Hnd as [| ? ? Hfresh Hnd']; subst.
    destruct Hin as [-> | Hin].
    + rewrite dict_get_fold_other by assumption.
      unfold store. apply dict_get_set_same.
    + apply IH; assumption.
Qed.

Lemma Forall2_In_right A B (R : A -> B -> Prop) xs ys y :
  Forall2 R xs ys -> In y ys -> exists x, In x xs /\ R x y.
Proof.
  induction 1 as [| x y0 xs ys Hxy _ IH]; simpl; [contradiction |].
  intros [-> | Hin].
  - exists x. auto.
  - destruct (IH Hin) as (x' & Hx' & Hr). exists x'. auto.
Qed.

Section Outcomes.

Context {os_path : OsPath}.
Variable w : World.
Variable file_path : string.

(** A call that returns has found the file and loaded the workbook. *)
Lemma analyze_excel_file_returned r log :
  analyze_excel_file w file_path = (Return r, log) ->
  path_exists w file_path = true /\
  exists wb, load_workbook w file_path = Return wb.
Proof.
  intros Hrun.
  destruct (path_exists w file_path) eqn:Hex.
  - split; [reflexivity |].
    destruct (load_workbook w file_path) as [wb | e] eqn:Hload.
    + exists wb. reflexivity.
    + pose proof (analyze_excel_file_not_loaded w file_path Hex Hload) as H.
      rewrite Hrun in H. discriminate.
  - rewrite (analyze_excel_file_missing w file_path Hex) in Hrun.
    discriminate.
Qed.

(** The dict of a call whose [try] block ran to its end. *)
Lemma analyze_excel_file_extracted r log :
  analyze_excel_file w file_path = (Return r, log) ->
  fst (extraction w file_path) = Return tt ->
  vba_error r = None /\
  exists entries,
    Forall2 yields (enumerated w file_path) entries /\
    modules r = map fst entries /\
    module_code r = fold_left store entries [].
Proof.
  intros Hrun Hok.
  destruct (analyze_excel_file_returned Hrun) as (Hex & wb & Hload).
  destruct (analyze_excel_file_loaded w file_path Hex Hload) as [log' Hrun'].
  rewrite Hrun in Hrun'. rewrite Hok in Hrun'. injection Hrun' as -> _.
  destruct (reader_stage_loaded w file_path Hload) as (_ & _ & Hres).
  pose proof (error_kept_extractor_body w file_path
                (frame_at_extractor w file_path)) as Herr.
  unfold error_kept in Herr. rewrite Hres in Herr. simpl in Herr.
  unfold extraction in *.
  destruct (extractor_body w file_path (frame_at_extractor w file_path))
    as [[[] | e] g] eqn:Hbody; [| discriminate].
  apply extractor_body_returned in Hbody as (entries & Hys & Hms & Hcs).
  rewrite Hres in Hms, Hcs. simpl in *.
  split; [exact Herr |]. exists entries. auto.
Qed.

End Outcomes.

(* ================================================================== *)
(** * The extractor when it succeeds *)

Lemma Forall2_length_eq A B (R : A -> B -> Prop) xs ys :
  Forall2 R xs ys -> length xs = length ys.
Proof. induction 1; simpl; congruence. Qed.

Lemma Forall2_nth_left A B (R : A -> B -> Prop) xs ys :
  Forall2 R xs ys ->
  forall i x, nth_error xs i = Some x ->
              exists y, nth_error ys i = Some y /\ R x y.
Proof.
  induction 1 as [| x0 y0 xs ys Hxy _ IH]; intros i x Hi.
  - destruct i; discriminate.
  - destruct i as [| i]; simpl in *.
    + injection Hi as <-. exists y0. auto.
    + apply IH. exact Hi.
Qed.

(** C4.  When macro extraction succeeds (the [try] block raises nothing),
    the key set of [module_code] equals the set of names in [modules].
    Every component of the enumerated collection has its record, at its
    position in [modules], with the name and the line count read from the
    component; and, the names of the components of a project being
    distinct, a component whose line count is zero has its name mapped
    to the placeholder ["(Empty Module)"], while a component whose line
    count is positive has its name mapped to the very text that
    [Lines(1, count)] returned for it.  The same holds read from the
    records of the result. *)
Theorem module_code_matches_modules
  {os_path : OsPath} (w : World) (file_path : string) r log :
  analyze_excel_file w file_path = (Return r, log) ->
  fst (extraction w file_path) = Return tt ->
  (forall k, In k (Py.keys (module_code r)) <->
             In k (map ModuleInfo.name (modules r))) /\
  length (modules r) = length (enumerated w file_path) /\
  (forall i step,
     nth_error (enumerated w file_path) i = Some step ->
     exists c cm m,
       step = Return c /\
       nth_error (modules r) i = Some m /\
       Name c = Return (ModuleInfo.name m) /\
       CodeModule c = Return cm /\
       CountOfLines cm = Return (ModuleInfo.code_lines m) /\
       (NoDup (map ModuleInfo.name (modules r)) ->
        (ModuleInfo.code_lines m <= 0 ->
         Py.dict_get (module_code r) (ModuleInfo.name m)
         = Some empty_module) /\
        (0 < ModuleInfo.code_lines m ->
         exists code,
           Lines cm 1 (ModuleInfo.code_lines m) = Return code /\
           Py.dict_get (module_code r) (ModuleInfo.name m) = Some code))) /\
  (NoDup (map ModuleInfo.name (modules r)) ->
   forall m, In m (modules r) ->
     (ModuleInfo.code_lines m <= 0 ->
      Py.dict_get (module_code r) (ModuleInfo.name m) = Some empty_module) /\
     (0 < ModuleInfo.code_lines m ->
      exists c cm code,
        In (Return c) (enumerated w file_path) /\
        Name c = Return (ModuleInfo.name m) /\
        CodeModule c = Return cm /\
        CountOfLines cm = Return (ModuleInfo.code_lines m) /\
        Lines cm 1 (ModuleInfo.code_lines m) = Return code /\
        Py.dict_get (module_code r) (ModuleInfo.name m) = Some code)).
Proof.
  intros Hrun Hok.
  destruct (analyze_excel_file_extracted w file_path Hrun Hok)
    as (_ & entries & Hys & Hms & Hcs).
  rewrite Hms, Hcs. split; [| split; [| split]].
  - intros k. rewrite keys_fold_store. simpl. tauto.
  - rewrite length_map. symmetry. apply (Forall2_length_eq Hys).
  - intros i step Hi.
    destruct (Forall2_nth_left Hys i Hi) as (entry & Hentry & Hy).
    destruct Hy as (c & cm & -> & Hname & _ & Hcm & Hcount & Hcode).
    exists c, cm, (fst entry).
    split; [reflexivity |].
    split; [rewrite nth_error_map, Hentry; reflexivity |].
    split; [exact Hname |]. split; [exact Hcm |]. split; [exact Hcount |].
    intros Hnd.
    pose proof (@dict_get_fold_store entries [] entry Hnd
                  (nth_error_In _ _ Hentry)) as Hget.
    rewrite Hget.
    destruct (Z.ltb_spec 0 (ModuleInfo.code_lines (fst entry))); split.
    + lia.
    + intros _. exists (snd entry). auto.
    + intros _. congruence.
    + lia.
  - intros Hnd m Hm.
    apply in_map_iff in Hm as (entry & <- & Hentry).
    pose proof (@dict_get_fold_store entries [] entry Hnd Hentry) as Hget.
    destruct (@Forall2_In_right _ _ yields _ _ entry Hys Hentry)
      as (step & Hstep & Hy).
    destruct Hy as (c & cm & -> & Hname & _ & Hcm & Hcount & Hcode).
    split.
    + intros Hle. rewrite Hget.
      destruct (Z.ltb_spec 0 (ModuleInfo.code_lines (fst entry)));
        [lia | congruence].
    + intros Hlt.
      destruct (Z.ltb_spec 0 (ModuleInfo.code_lines (fst entry)));
        [| lia].
      exists c, cm, (snd entry). auto 6.
Qed.

(** ** Where the first record is appended *)

Lemma modules_grow_refl f : modules_grow f f.
Proof. exists []. rewrite app_nil_r. reflexivity. Qed.

Lemma modules_grow_trans f g h :
  modules_grow f g -> modules_grow g h -> modules_grow f h.
Proof.
  intros [m1 H1] [m2 H2]. exists (m1 ++ m2)%list.
  rewrite H2, H1, app_assoc. reflexivity.
Qed.

Lemma modules_grow_extract_component c :
  evolves modules_grow (extract_component c).
Proof.
  apply evolves_extract_component.
  - apply modules_grow_refl.
  - apply modules_grow_trans.
  - intros i f. exists [i]. reflexivity.
  - intros k code f. exists []. simpl. rewrite app_nil_r. reflexivity.
Qed.

Lemma modules_grow_enumeration steps :
  evolves modules_grow (for_in steps extract_component).
Proof.
  apply evolves_for_in.
  - apply modules_grow_refl.
  - apply modules_grow_trans.
  - apply modules_grow_extract_component.
Qed.

(** A component whose record cannot be read leaves the dict alone; one
    whose record can be read gets it appended. *)
Lemma extract_component_first c f :
  (readable c = false ->
   results (snd (extract_component c f)) = results f) /\
  (readable c = true ->
   exists info more,
     modules (results (snd (extract_component c f)))
     = (modules (results f) ++ info :: more)%list).
Proof.
  pose proof (modules_grow_extract_component c) as Hgrow.
  unfold extract_component in *. unfold bind at 1. unfold bind at 1 in Hgrow.
  unfold readable, module_info, bind, lift, ret in *.
  destruct (Name c) as [name |]; simpl; [| split; [auto | discriminate]].
  destruct (Type_ c) as [type |]; simpl; [| split; [auto | discriminate]].
  destruct (CodeModule c) as [cm |]; simpl; [| split; [auto | discriminate]].
  destruct (CountOfLines cm) as [n |]; simpl; [| split; [auto | discriminate]].
  split; [discriminate | intros _].
  set (info := {| ModuleInfo.name := name; ModuleInfo.type_ := type;
                  ModuleInfo.code_lines := n |}).
  destruct (0 <? n); simpl.
  - destruct (Lines cm 1 n); simpl.
    + exists info, []. reflexivity.
    + exists info, []. reflexivity.
  - exists info, []. reflexivity.
Qed.

Lemma yields_readable c entry : yields (Return c) entry -> readable c = true.
Proof.
  intros (c' & cm & Hc & Hn & Ht & Hcm & Hcount & _).
  injection Hc as <-. unfold readable. rewrite Hn, Ht, Hcm, Hcount.
  reflexivity.
Qed.

Lemma for_in_step S A (x : A) it (body : A -> M S unit) s :
  for_in (Return x :: it) body s =
  match body x s with
  | (Return _, s') => for_in it body s'
  | (Raise e, s') => (Raise e, s')
  end.
Proof. reflexivity. Qed.

Lemma enumeration_first steps f :
  (first_unrecorded steps = true ->
   results (snd (for_in steps extract_component f)) = results f) /\
  (first_unrecorded steps = false ->
   exists info more,
     modules (results (snd (for_in steps extract_component f)))
     = (modules (results f) ++ info :: more)%list).
Proof.
  destruct steps as [| [c | e] steps]; simpl first_unrecorded.
  - split; [reflexivity | discriminate].
  - rewrite for_in_step.
    destruct (extract_component_first c f) as [Hno Hyes].
    pose proof (modules_grow_enumeration steps) as Hrest.
    destruct (extract_component c f) as [[[] | e] f1] eqn:Hstep; simpl in *.
    + split.
      * intros Hr. apply negb_true_iff in Hr.
        apply extract_component_returned in Hstep as (entry & Hy & _).
        apply yields_readable in Hy. congruence.
      * intros Hr. apply negb_false_iff in Hr.
        destruct (Hyes Hr) as (info & more & Hm).
        destruct (Hrest f1) as [more' Hm'].
        exists info, (more ++ more')%list.
        rewrite Hm', Hm, <- app_assoc. reflexivity.
    + split.
      * intros Hr. apply negb_true_iff in Hr. auto.
      * intros Hr. apply negb_false_iff in Hr. auto.
  - split; [reflexivity | discriminate].
Qed.

Section FirstRecord.

Context {os_path : OsPath}.
Variable w : World.
Variable file_path : string.

Lemma create_excel_instance_raised e f g :
  create_excel_instance w f = (Raise e, g) -> enumerated w file_path = [].
Proof.
  unfold create_excel_instance, enumerated, bind, try_except, call, ret, raise.
  simpl.
  destruct (Dispatch w "Excel.Application") as [a |]; [| reflexivity].
  destruct (set_DisplayAlerts a false) as [[] |]; [| reflexivity].
  destruct (set_Visible a false) as [[] |]; [| reflexivity].
  discriminate.
Qed.

(** As far as the dict goes, the [try] block is the loop over the
    enumerated steps. *)
Lemma extractor_body_results f :
  exists f',
    results f' = results f /\
    results (snd (extractor_body w file_path f))
    = results (snd (for_in (enumerated w file_path) extract_component f')).
Proof.
  unfold extractor_body. unfold bind at 1.
  pose proof (results_kept_create_excel_instance w f) as Hkept.
  unfold results_kept in Hkept.
  destruct (create_excel_instance w f) as [[app | e] f1] eqn:Hcreate;
    simpl in Hkept.
  - apply create_excel_instance_returned in Hcreate as (Hd & Ha & Hv).
    unfold enumerated. rewrite Hd, Ha, Hv.
    unfold bind, set_excel, call, lift. simpl.
    destruct (Workbooks_Open app (abspath file_path) true) as [wb_vba |];
      simpl; [| exists f; auto].
    destruct (VBProject_VBComponents wb_vba) as [steps |];
      simpl; [| exists f; auto].
    exists {| results := results f1; excel := Some app;
              trace := trace f1 ++ [EvWorkbooksOpen (abspath file_path) true] |}.
    split; [exact Hkept |].
    destruct (for_in steps extract_component _) as [[[] | e] f2]; reflexivity.
  - rewrite (@create_excel_instance_raised e f f1 Hcreate). simpl.
    exists f. auto.
Qed.

(** The [try] block leaves the dict alone when [records_nothing] holds,
    and appends at least one record otherwise. *)
Lemma extractor_body_first f :
  (records_nothing w file_path = true ->
   results (snd (extractor_body w file_path f)) = results f) /\
  (records_nothing w file_path = false ->
   exists info more,
     modules (results (snd (extractor_body w file_path f)))
     = (modules (results f) ++ info :: more)%list).
Proof.
  unfold records_nothing.
  destruct (extractor_body_results f) as (f' & Hf' & ->).
  rewrite <- Hf'. apply enumeration_first.
Qed.

End FirstRecord.

(* ================================================================== *)
(** * The reader: worksheets and the missing file *)

(** C3.  For a workbook with N worksheets, the call returns a result whose
    worksheet list has N entries, in the workbook's order: the entry at
    each position carries the title of the sheet at that position, its
    [has_content] flag is false exactly when the sheet's calculated
    dimension is ["A1:A1"], and its [print_area] is the configured string,
    or ["Not Set"] when none is configured ([None] or the empty string). *)
Theorem worksheets_follow_workbook
  {os_path : OsPath} (w : World) (file_path : string) wb :
  path_exists w file_path = true ->
  load_workbook w file_path = Return wb ->
  exists r log,
    analyze_excel_file w file_path = (Return r, log) /\
    length (worksheets r) = length (Openpyxl.worksheets wb) /\
    forall i sheet,
      nth_error (Openpyxl.worksheets wb) i = Some sheet ->
      exists info,
        nth_error (worksheets r) i = Some info /\
        SheetInfo.name info = Openpyxl.title sheet /\
        (SheetInfo.has_content info = false <->
         Openpyxl.calculate_dimension sheet = "A1:A1") /\
        (forall s, Openpyxl.print_area sheet = Some s -> s <> "" ->
                   SheetInfo.print_area info = s) /\
        (Openpyxl.print_area sheet = None \/
         Openpyxl.print_area sheet = Some "" ->
         SheetInfo.print_area info = "Not Set").
Proof.
  intros Hex Hload.
  destruct (analyze_excel_file_loaded w file_path Hex Hload) as [log Hrun].
  eexists. exists log. split; [exact Hrun |].
  destruct (reader_stage_loaded w file_path Hload) as (_ & _ & Hres).
  pose proof (reader_fields_kept_extractor_body w file_path
                (frame_at_extractor w file_path)) as (_ & _ & _ & Hws).
  fold (extraction w file_path) in Hws. rewrite Hres in Hws. simpl in Hws.
  assert (Hr : worksheets
                 match fst (extraction w file_path) with
                 | Return _ => results (snd (extraction w file_path))
                 | Raise e =>
                     set_vba_error (classify (str_of_exn e))
                                   (results (snd (extraction w file_path)))
                 end
               = map sheet_info (Openpyxl.worksheets wb)).
  { destruct (fst (extraction w file_path)); exact Hws. }
  rewrite Hr. split; [apply length_map |].
  intros i sheet Hi. exists (sheet_info sheet).
  split; [rewrite nth_error_map, Hi; reflexivity |].
  split; [reflexivity |].
  unfold sheet_info; simpl. split; [| split].
  - rewrite negb_false_iff. apply String.eqb_eq.
  - intros s Hs Hne. rewrite Hs. simpl.
    destruct (String.eqb_spec s ""); [contradiction | reflexivity].
  - intros [-> | ->]; reflexivity.
Qed.

(** C5.  For a path that does not exist, the call raises
    [FileNotFoundError] before anything else happens (its log is empty:
    no workbook is loaded, no session started), and [main], given that
    path by the file dialog, opens no file for writing. *)
Theorem missing_file_stops_the_run
  {os_path : OsPath} (w : World) (file_path : string) :
  path_exists w file_path = false ->
  analyze_excel_file w file_path =
    (Raise (FileNotFoundError ("File not found: " ++ file_path)), []) /\
  (askopenfilename w = file_path -> files_opened (main w) = []).
Proof.
  intros Hex. split; [apply analyze_excel_file_missing; exact Hex |].
  intros Hpick. unfold main, try_except, bind, select_file, emit, ret, run.
  simpl. rewrite Hpick.
  destruct (String.eqb file_path ""); simpl; [reflexivity |].
  rewrite (analyze_excel_file_missing w file_path Hex). reflexivity.
Qed.

(** C10.  When the file dialog returns the empty selection, [main] asks,
    prints the notice and returns: nothing is loaded, analysed or
    written. *)
Theorem cancelled_selection_returns_at_once
  {os_path : OsPath} (w : World) :
  askopenfilename w = "" ->
  main w = [EvAskOpenFilename; EvPrint "No file selected"].
Proof.
  intros Hpick. unfold main, try_except, bind, select_file, emit, ret.
  simpl. rewrite Hpick. reflexivity.
Qed.

(* ================================================================== *)
(** * The extractor when it fails *)

(** C6.  Whatever exception the [try] block raises, the call still
    returns a result, and the ['vba_error'] it records is the trust-center
    message when the exception's text contains the trust-center phrase,
    and the exception's text itself otherwise. *)
Theorem extraction_failure_is_classified
  {os_path : OsPath} (w : World) (file_path : string) wb e f :
  path_exists w file_path = true ->
  load_workbook w file_path = Return wb ->
  extraction w file_path = (Raise e, f) ->
  exists r log,
    analyze_excel_file w file_path = (Return r, log) /\
    (Py.contains trust_phrase (str_of_exn e) = true ->
     vba_error r = Some "VBA access not enabled in Excel Trust Center") /\
    (Py.contains trust_phrase (str_of_exn e) = false ->
     vba_error r = Some (str_of_exn e)).
Proof.
  intros Hex Hload Hfail.
  destruct (analyze_excel_file_loaded w file_path Hex Hload) as [log Hrun].
  rewrite Hfail in Hrun. simpl in Hrun.
  eexists. exists log. split; [exact Hrun |].
  unfold classify; simpl. split; intros ->; reflexivity.
Qed.

(** C2, as the code has it.  When the [try] block raises, the call
    returns a result that records a ['vba_error'] string and holds the
    worksheet entries of the reader unchanged; its [modules] list and
    [module_code] mapping are the ones the [try] block had reached when
    it raised.  They are both empty when the exception came before any
    record was appended (the session could not be set up, the workbook
    not opened, the collection not reached or empty, the first step
    raised, or the first record could not be read); otherwise the list is
    not empty. *)
Theorem failed_extraction_keeps_what_was_recorded
  {os_path : OsPath} (w : World) (file_path : string) wb e f :
  path_exists w file_path = true ->
  load_workbook w file_path = Return wb ->
  extraction w file_path = (Raise e, f) ->
  exists r log,
    analyze_excel_file w file_path = (Return r, log) /\
    (exists msg, vba_error r = Some msg) /\
    worksheets r = map sheet_info (Openpyxl.worksheets wb) /\
    modules r = modules (results f) /\
    module_code r = module_code (results f) /\
    (records_nothing w file_path = true ->
     modules r = [] /\ module_code r = []) /\
    (records_nothing w file_path = false -> modules r <> []).
Proof.
  intros Hex Hload Hfail.
  destruct (analyze_excel_file_loaded w file_path Hex Hload) as [log Hrun].
  rewrite Hfail in Hrun. simpl in Hrun.
  eexists. exists log. split; [exact Hrun |]. simpl.
  destruct (reader_stage_loaded w file_path Hload) as (_ & _ & Hres).
  pose proof (reader_fields_kept_extractor_body w file_path
                (frame_at_extractor w file_path)) as (_ & _ & _ & Hws).
  destruct (extractor_body_first w file_path (frame_at_extractor w file_path))
    as [Hno Hyes].
  fold (extraction w file_path) in Hws, Hno, Hyes.
  rewrite Hfail in Hws, Hno, Hyes. rewrite Hres in Hws, Hno, Hyes.
  simpl in Hws, Hno, Hyes.
  split; [eexists; reflexivity |].
  split; [exact Hws |].
  split; [reflexivity |]. split; [reflexivity |]. split.
  - intros Hn. rewrite (Hno Hn). simpl. auto.
  - intros Hn. destruct (Hyes Hn) as (info & more & ->). discriminate.
Qed.

(* ================================================================== *)
(** * The report *)

Lemma append_assoc (a b c : string) : (a ++ b) ++ c = a ++ (b ++ c).
Proof. induction a as [| x a IH]; simpl; [reflexivity | now rewrite IH]. Qed.

Lemma append_nil_r (a : string) : a ++ "" = a.
Proof. induction a as [| x a IH]; simpl; [reflexivity | now rewrite IH]. Qed.

Lemma append_length (a b : string) :
  String.length (a ++ b) = (String.length a + String.length b)%nat.
Proof. induction a as [| x a IH]; simpl; [reflexivity | now rewrite IH]. Qed.

Lemma appends_write s : appends (write s).
Proof. intros buf. reflexivity. Qed.

Lemma appends_ret : appends (ret tt).
Proof. intros buf. unfold text_of, ret. simpl. now rewrite append_nil_r. Qed.

Lemma appends_seq (m k : M string unit) :
  appends m -> appends k ->
  appends (m ;; k) /\ text_of (m ;; k) = text_of m ++ text_of k.
Proof.
  intros Hm Hk.
  assert (Ht : text_of (m ;; k) = text_of m ++ text_of k).
  { unfold text_of at 1, bind. rewrite Hm. simpl. rewrite Hk. reflexivity. }
  split; [| exact Ht].
  intros buf. rewrite Ht. unfold bind. rewrite Hm, Hk.
  now rewrite append_assoc.
Qed.

Lemma appends_bind (m k : M string unit) :
  appends m -> appends k -> appends (m ;; k).
Proof. intros Hm Hk. apply appends_seq; assumption. Qed.

Lemma appends_for_each A (xs : list A) (body : A -> M string unit) :
  (forall x, appends (body x)) -> appends (for_each xs body).
Proof.
  intros Hb. induction xs as [| x xs IH]; simpl.
  - apply appends_ret.
  - apply appends_bind; auto.
Qed.

Ltac appends_steps :=
  repeat first
    [ apply appends_write
    | apply appends_ret
    | apply appends_bind
    | apply appends_for_each; intros ?
    | match goal with
      | |- appends (let '(_, _) := ?x in _) => destruct x
      end ].

Lemma appends_banner : appends write_banner.
Proof. unfold write_banner. appends_steps. Qed.

Lemma appends_file_information r : appends (write_file_information r).
Proof. unfold write_file_information. appends_steps. Qed.

Lemma appends_worksheet_information r :
  appends (write_worksheet_information r).
Proof. unfold write_worksheet_information. appends_steps. Qed.

Lemma appends_vba_error msg : appends (write_vba_error msg).
Proof. unfold write_vba_error. appends_steps. Qed.

Lemma appends_module_information r : appends (write_module_information r).
Proof. unfold write_module_information. appends_steps. Qed.

Lemma appends_module_code r : appends (write_module_code r).
Proof. unfold write_module_code. appends_steps. Qed.

(** The text of a section starts with its heading. *)
Lemma section_starts (title : string) (rest : M string unit) :
  appends rest ->
  text_of (write (title ++ nl) ;; write (Py.repeat "-" 50 ++ nl) ;; rest)
  = heading title ++ text_of rest.
Proof.
  intros Hrest.
  destruct (appends_seq (appends_write (Py.repeat "-" 50 ++ nl)) Hrest)
    as [H2 T2].
  destruct (appends_seq (appends_write (title ++ nl)) H2) as [_ T1].
  rewrite T1, T2. unfold heading, text_of at 1 2, write. simpl.
  rewrite !append_assoc. reflexivity.
Qed.

(** C7, as the code has it.  The report is the banner followed by the
    sections in a fixed order: file information, worksheet information,
    then, when no error is recorded, macro-module information and the
    macro source listings (four sections), and when an error is recorded,
    only the macro-module heading with the error (three sections, no
    source listings).  Each section starts with its own heading. *)
Theorem report_sections_in_order (r : Results) :
  text_of (write_report r) =
    text_of write_banner ++
    text_of (write_file_information r) ++
    text_of (write_worksheet_information r) ++
    match vba_error r with
    | Some msg => text_of (write_vba_error msg)
    | None => text_of (write_module_information r) ++
              text_of (write_module_code r)
    end /\
  (exists t, text_of (write_file_information r)
             = heading "FILE INFORMATION" ++ t) /\
  (exists t, text_of (write_worksheet_information r)
             = heading "WORKSHEET INFORMATION" ++ t) /\
  (forall msg, text_of (write_vba_error msg)
               = heading "VBA MODULE INFORMATION"
                 ++ "Error: " ++ msg ++ nl ++ nl) /\
  (exists t, text_of (write_module_information r)
             = heading "VBA MODULE INFORMATION" ++ t) /\
  (exists t, text_of (write_module_code r)
             = heading "VBA MODULE CODE" ++ t).
Proof.
  split; [| split; [| split; [| split; [| split]]]].
  - unfold write_report.
    assert (Hlast : appends
              match vba_error r with
              | Some msg => write_vba_error msg
              | None => write_module_information r ;; write_module_code r
              end).
    { destruct (vba_error r).
      - apply appends_vba_error.
      - apply appends_bind;
          [apply appends_module_information | apply appends_module_code]. }
    destruct (appends_seq (appends_worksheet_information r) Hlast)
      as [H3 T3].
    destruct (appends_seq (appends_file_information r) H3) as [H2 T2].
    destruct (appends_seq appends_banner H2) as [_ T1].
    rewrite T1, T2, T3. do 3 f_equal.
    destruct (vba_error r); [reflexivity |].
    apply appends_seq;
      [apply appends_module_information | apply appends_module_code].
  - eexists. unfold write_file_information.
    apply section_starts. appends_steps.
  - eexists. unfold write_worksheet_information.
    apply section_starts. appends_steps.
  - intros msg. unfold write_vba_error.
    rewrite section_starts by appends_steps. reflexivity.
  - eexists. unfold write_module_information.
    apply section_starts. appends_steps.
  - eexists. unfold write_module_code.
    apply section_starts. appends_steps.
Qed.

(** C7 as stated fails: the report of a result with a recorded error (the
    one the call returns when the session cannot be started) has the
    macro-module heading but no source-listing section. *)
Lemma error_report_has_three_sections :
  exists r log,
    analyze_excel_file (os_path := Sample.os_path)
      Sample.no_excel Sample.book = (Return r, log) /\
    Py.contains (heading "VBA MODULE INFORMATION") (text_of (write_report r))
    = true /\
    Py.contains "VBA MODULE CODE" (text_of (write_report r)) = false.
Proof. do 2 eexists. split; [reflexivity |]. split; vm_compute; reflexivity. Qed.

(** ** The output path *)

Lemma zfill_length_upto (width : nat) (bound : Z) :
  forallb (fun k => Nat.eqb (String.length (Py.zfill width (Z.of_nat k))) width)
          (seq 0 (Z.to_nat bound)) = true ->
  forall n, 0 <= n < bound -> String.length (Py.zfill width n) = width.
Proof.
  intros H n Hn. rewrite forallb_forall in H.
  specialize (H (Z.to_nat n)). rewrite Z2Nat.id in H by lia.
  apply Nat.eqb_eq, H. apply in_seq. lia.
Qed.

Lemma zfill2_length n : 0 <= n <= 99 -> String.length (Py.zfill 2 n) = 2%nat.
Proof.
  intros Hn. apply (@zfill_length_upto 2 100); [vm_compute; reflexivity | lia].
Qed.

Lemma zfill4_length n :
  0 <= n <= 9999 -> String.length (Py.zfill 4 n) = 4%nat.
Proof.
  intros Hn.
  apply (@zfill_length_upto 4 10000); [vm_compute; reflexivity | lia].
Qed.

Lemma get_after (a : string) c rest :
  String.get (String.length a) (a ++ String c rest) = Some c.
Proof. induction a as [| x a IH]; simpl; [reflexivity | exact IH]. Qed.

Lemma strftime_stamp d :
  strftime "%Y%m%d_%H%M%S" d =
    Py.zfill 4 (year d) ++ Py.zfill 2 (month d) ++ Py.zfill 2 (day d)
    ++ "_" ++ Py.zfill 2 (hour d) ++ Py.zfill 2 (minute d)
    ++ Py.zfill 2 (second d).
Proof. simpl. rewrite append_nil_r. reflexivity. Qed.

(** C8.  When the output file can be opened, [save_analysis_to_file]
    writes one file, opened for writing with the UTF-8 encoding, holding
    the report, and returns exactly the path it wrote.  The path is the
    platform's join of the directory (the caller's when given, otherwise
    the directory of the source file) with
    [<basename>_analysis_<YYYYMMDD_HHMMSS>.txt], where [<basename>] is
    the source file name without its extension; for a clock value in
    range the stamp has 15 characters with the underscore in the
    middle. *)
Theorem report_written_at_derived_path
  {os_path : OsPath} (w : World) (r : Results) (output_dir : option string) :
  let now := now_at_save w in
  let stamp :=
    Py.zfill 4 (year now) ++ Py.zfill 2 (month now) ++ Py.zfill 2 (day now)
    ++ "_" ++ Py.zfill 2 (hour now) ++ Py.zfill 2 (minute now)
    ++ Py.zfill 2 (second now) in
  let dir :=
    match output_dir with
    | Some d => d
    | None => dirname (full_path r)
    end in
  let path :=
    join dir (fst (splitext (filename r)) ++ "_analysis_" ++ stamp ++ ".txt") in
  open_w w path = Return tt ->
  save_analysis_to_file w r output_dir =
    (Return path,
     [EvOpen path "w" "utf-8"; EvFileClosed path (text_of (write_report r))])
  /\ (valid_datetime now ->
      String.length stamp = 15%nat /\ String.get 8 stamp = Some "_"%char).
Proof.
  intros now stamp dir path Hopen.
  assert (Hpath : output_path w r output_dir = path).
  { unfold output_path. rewrite strftime_stamp.
    destruct output_dir; reflexivity. }
  split.
  - unfold save_analysis_to_file. rewrite Hpath, Hopen.
    unfold text_of. destruct (write_report r "") as [o text]. reflexivity.
  - intros (Hy & Hm & Hd & HH & HM & HS). unfold stamp.
    assert (L4 := @zfill4_length (year now)).
    assert (Lm := @zfill2_length (month now)).
    assert (Ld := @zfill2_length (day now)).
    assert (LH := @zfill2_length (hour now)).
    assert (LM := @zfill2_length (minute now)).
    assert (LS := @zfill2_length (second now)).
    split.
    + rewrite !append_length. simpl. lia.
    + rewrite <- !append_assoc.
      replace 8%nat with
        (String.length ((Py.zfill 4 (year now) ++ Py.zfill 2 (month now))
                        ++ Py.zfill 2 (day now)))
        by (rewrite !append_length; lia).
      rewrite !append_assoc. simpl.
      rewrite <- !append_assoc. simpl. 
      rewrite append_assoc. apply get_after.
Qed.

(* ================================================================== *)
(** * The cleanup *)

Lemma log_grows_refl f : log_grows f f.
Proof. exists []. rewrite app_nil_r. reflexivity. Qed.

Lemma log_grows_trans f g h : log_grows f g -> log_grows g h -> log_grows f h.
Proof.
  intros [m1 H1] [m2 H2]. exists (m1 ++ m2)%list.
  rewrite H2, H1, app_assoc. reflexivity.
Qed.

Lemma log_grows_call A (e : Event) (o : outcome A) :
  is_snapshot e = false -> evolves log_grows (call e o).
Proof. intros _ f. exists [e]. reflexivity. Qed.

Lemma log_grows_update g : evolves log_grows (update_results g).
Proof. intros f. eexists. reflexivity. Qed.

Lemma log_grows_extract_component c : evolves log_grows (extract_component c).
Proof.
  apply evolves_extract_component.
  - apply log_grows_refl.
  - apply log_grows_trans.
  - intros i. apply log_grows_update.
  - intros k code. apply log_grows_update.
Qed.

Lemma log_grows_extractor_body {os_path : OsPath} (w : World) p :
  evolves log_grows (extractor_body w p).
Proof.
  apply evolves_extractor_body.
  - apply log_grows_refl.
  - apply log_grows_trans.
  - apply log_grows_call.
  - intros x f. exists []. simpl. rewrite app_nil_r. reflexivity.
  - apply log_grows_extract_component.
Qed.

Lemma excel_kept_enumeration steps :
  evolves excel_kept (for_in steps extract_component).
Proof.
  assert (Hrefl : forall f, excel_kept f f) by reflexivity.
  assert (Htrans : forall f g h,
             excel_kept f g -> excel_kept g h -> excel_kept f h)
    by (unfold excel_kept; congruence).
  apply evolves_for_in; auto.
  intros c. apply evolves_extract_component; auto; intros ? ? ; reflexivity.
Qed.

Section Cleanup.

Context {os_path : OsPath}.
Variable w : World.
Variable file_path : string.

(** Once the session is set up, the [try] block ends with [excel] bound to
    it, however it ends. *)
Lemma extractor_body_binds_excel app f :
  Dispatch w "Excel.Application" = Return app ->
  set_DisplayAlerts app false = Return tt ->
  set_Visible app false = Return tt ->
  excel (snd (extractor_body w file_path f)) = Some app.
Proof.
  intros Hd Ha Hv.
  unfold extractor_body, create_excel_instance, bind, try_except, call,
    set_excel, lift, ret. simpl.
  rewrite Hd, Ha, Hv. simpl.
  destruct (Workbooks_Open app (abspath file_path) true) as [wb_vba |];
    simpl; [| reflexivity].
  destruct (VBProject_VBComponents wb_vba) as [steps |]; simpl;
    [| reflexivity].
  match goal with
  | |- context [for_in steps extract_component ?f0] =>
      pose proof (excel_kept_enumeration steps f0) as Hkept;
      destruct (for_in steps extract_component f0) as [[[] | e] f2]
  end; exact Hkept.
Qed.

(** With [excel] bound, the cleanup quits the application and
    uninitializes the runtime, whether or not [Quit] raises. *)
Lemma extractor_cleanup_bound app g :
  excel g = Some app ->
  trace (snd (extractor_cleanup g)) = (trace g ++ [EvQuit; EvCoUninitialize])%list.
Proof.
  intros Hb. unfold extractor_cleanup, bind, get_excel, try_except, call, ret.
  rewrite Hb. destruct (Quit app); cbn [snd trace]; rewrite <- app_assoc;
    reflexivity.
Qed.

Lemma extractor_handler_frame e g :
  excel (snd (extractor_handler e g)) = excel g /\
  exists more, trace (snd (extractor_handler e g)) = (trace g ++ more)%list.
Proof.
  unfold extractor_handler, update_results.
  destruct (Py.contains trust_phrase (str_of_exn e)); cbn [snd excel trace];
    split; eauto.
Qed.

(** Once the session is set up, the stage ends by quitting the
    application and uninitializing the runtime, on every exit of the
    [try] block. *)
Lemma cleanup_runs_once_session_is_set_up app f :
  excel f = None ->
  Dispatch w "Excel.Application" = Return app ->
  set_DisplayAlerts app false = Return tt ->
  set_Visible app false = Return tt ->
  exists before,
    trace (snd (extractor_stage w file_path f))
    = (trace f ++ before ++ [EvQuit; EvCoUninitialize])%list.
Proof.
  intros Hex Hd Ha Hv.
  pose proof (extractor_body_binds_excel f Hd Ha Hv) as Hbound.
  pose proof (log_grows_extractor_body w file_path f) as [m1 Hm1].
  assert (Hstage :
    snd (extractor_stage w file_path f) =
    snd (extractor_cleanup
           match extractor_body w file_path f with
           | (Return _, g) => g
           | (Raise e, g) => snd (extractor_handler e g)
           end)).
  { unfold extractor_stage, bind.
    pose proof (excel_none_set f Hex) as Hset.
    destruct (set_excel None f) as [[[] | e0] f0] eqn:Hs; [| discriminate Hs].
    cbn [snd] in Hset. subst f0.
    unfold try_finally, try_except.
    destruct (extractor_body w file_path f) as [[[] | e] g].
    - destruct (extractor_cleanup g) as [[[] | e'] g']; reflexivity.
    - destruct (extractor_handler e g) as [o1 g1]. cbn [snd].
      destruct o1; destruct (extractor_cleanup g1) as [[[] | e'] g'];
        reflexivity. }
  rewrite Hstage. clear Hstage.
  destruct (extractor_body w file_path f) as [[[] | e] g];
    cbn [snd] in Hbound, Hm1.
  - rewrite (extractor_cleanup_bound g Hbound), Hm1, <- app_assoc.
    exists m1. reflexivity.
  - destruct (extractor_handler_frame e g) as [Hx [m2 Hm2]].
    rewrite (@extractor_cleanup_bound app (snd (extractor_handler e g)))
      by congruence.
    rewrite Hm2, Hm1, <- !app_assoc. exists (m1 ++ m2)%list.
    rewrite <- app_assoc. reflexivity.
Qed.

End Cleanup.

(** C1.  The cleanup does not run on every exit of the extractor stage.
    When the session cannot be started, the runtime initialized by
    [create_excel_instance] is never uninitialized; when the session
    starts but cannot be configured, the application is never quit; and
    when the enumeration raises, the workbook is never closed.  The three
    logs below are those of the call in the three worlds. *)
Theorem cleanup_is_skipped_on_some_exits :
  calls (snd (analyze_excel_file (os_path := Sample.os_path)
                Sample.no_excel Sample.book))
  = [EvLoadWorkbook Sample.book; EvCoInitialize;
     EvDispatch "Excel.Application"] /\
  calls (snd (analyze_excel_file (os_path := Sample.os_path)
                Sample.half_started Sample.book))
  = [EvLoadWorkbook Sample.book; EvCoInitialize;
     EvDispatch "Excel.Application";
     EvSetDisplayAlerts false; EvSetVisible false] /\
  calls (snd (analyze_excel_file (os_path := Sample.os_path)
                Sample.broken Sample.book))
  = [EvLoadWorkbook Sample.book; EvCoInitialize;
     EvDispatch "Excel.Application";
     EvSetDisplayAlerts false; EvSetVisible false;
     EvWorkbooksOpen Sample.book true; EvQuit; EvCoUninitialize].
Proof. repeat split. Qed.

(* ================================================================== *)
(** * The theorems at concrete inputs *)

(** The reader on the two-sheet workbook. *)
Lemma worksheets_follow_workbook_witness :
  path_exists Sample.trusted Sample.book = true /\
  load_workbook Sample.trusted Sample.book = Return Sample.two_sheets /\
  exists r log,
    analyze_excel_file (os_path := Sample.os_path) Sample.trusted Sample.book
    = (Return r, log) /\
    length (worksheets r) = 2%nat.
Proof.
  split; [reflexivity |]. split; [reflexivity |].
  destruct (@worksheets_follow_workbook Sample.os_path Sample.trusted
              Sample.book Sample.two_sheets eq_refl eq_refl)
    as (r & log & Hrun & Hlen & _).
  exists r, log. split; [exact Hrun | exact Hlen].
Defined.

(** A successful extraction of two components: [Module1] has two lines
    and maps to its text, [Sheet1] is empty and maps to the placeholder. *)
Lemma module_code_matches_modules_witness :
  exists r log,
    analyze_excel_file (os_path := Sample.os_path) Sample.trusted Sample.book
    = (Return r, log) /\
    fst (extraction (os_path := Sample.os_path) Sample.trusted Sample.book)
    = Return tt /\
    NoDup (map ModuleInfo.name (modules r)) /\
    (forall k, In k (Py.keys (module_code r)) <->
               In k (map ModuleInfo.name (modules r))) /\
    Py.dict_get (module_code r) "Module1"
    = Some ("Sub A()" ++ nl ++ "End Sub") /\
    Py.dict_get (module_code r) "Sheet1" = Some empty_module.
Proof.
  assert (Hrun : exists r log,
             analyze_excel_file (os_path := Sample.os_path)
               Sample.trusted Sample.book = (Return r, log) /\
             map ModuleInfo.name (modules r) = ["Module1"; "Sheet1"]).
  { vm_compute. do 2 eexists. split; reflexivity. }
  destruct Hrun as (r & log & Hrun & Hnames).
  assert (Hok : fst (extraction (os_path := Sample.os_path)
                       Sample.trusted Sample.book) = Return tt)
    by (vm_compute; reflexivity).
  assert (Hnd : NoDup (map ModuleInfo.name (modules r))).
  { rewrite Hnames. repeat constructor; simpl; intuition discriminate. }
  destruct (module_code_matches_modules _ _ Hrun Hok)
    as (Hkeys & _ & Hsteps & _).
  exists r, log. split; [exact Hrun |]. split; [exact Hok |].
  split; [exact Hnd |]. split; [exact Hkeys |]. split.
  - destruct (Hsteps 0%nat (Return Sample.Module1) eq_refl)
      as (c & cm & m & Hc & _ & Hname & Hcm & Hcount & Hmap).
    injection Hc as <-. cbn in Hname, Hcm.
    injection Hname as Hnm. injection Hcm as <-. cbn in Hcount.
    injection Hcount as Hn.
    destruct (Hmap Hnd) as [_ Hpos].
    rewrite <- Hnm, <- Hn in Hpos.
    destruct (Hpos ltac:(lia)) as (code & Hlines & Hget).
    cbn in Hlines. injection Hlines as <-. exact Hget.
  - destruct (Hsteps 1%nat (Return Sample.Sheet1) eq_refl)
      as (c & cm & m & Hc & _ & Hname & Hcm & Hcount & Hmap).
    injection Hc as <-. cbn in Hname, Hcm.
    injection Hname as Hnm. injection Hcm as <-. cbn in Hcount.
    injection Hcount as Hn.
    destruct (Hmap Hnd) as [Hzero _].
    rewrite <- Hnm, <- Hn in Hzero. apply Hzero. lia.
Defined.

(** A path that does not exist, handed over by the file dialog. *)
Lemma missing_file_stops_the_run_witness :
  let w := Sample.world (Raise (Exception "unused")) "C:\docs\gone.xlsx" in
  path_exists w "C:\docs\gone.xlsx" = false /\
  analyze_excel_file (os_path := Sample.os_path) w "C:\docs\gone.xlsx" =
    (Raise (FileNotFoundError "File not found: C:\docs\gone.xlsx"), []) /\
  files_opened (main (os_path := Sample.os_path) w) = [].
Proof.
  intros w. split; [reflexivity |].
  destruct (@missing_file_stops_the_run Sample.os_path w "C:\docs\gone.xlsx"
              eq_refl) as [Hrun Hmain].
  split; [exact Hrun | exact (Hmain eq_refl)].
Defined.

(** The dialog is cancelled. *)
Lemma cancelled_selection_returns_at_once_witness :
  let w := Sample.world (Raise (Exception "unused")) "" in
  askopenfilename w = "" /\
  main (os_path := Sample.os_path) w
  = [EvAskOpenFilename; EvPrint "No file selected"].
Proof.
  intros w. split; [reflexivity |].
  exact (@cancelled_selection_returns_at_once Sample.os_path w eq_refl).
Defined.

(** Macro access denied by the trust policy. *)
Lemma extraction_failure_is_classified_witness :
  path_exists Sample.denied Sample.book = true /\
  load_workbook Sample.denied Sample.book = Return Sample.two_sheets /\
  exists r log,
    analyze_excel_file (os_path := Sample.os_path) Sample.denied Sample.book
    = (Return r, log) /\
    vba_error r = Some "VBA access not enabled in Excel Trust Center".
Proof.
  split; [reflexivity |]. split; [reflexivity |].
  destruct (@extraction_failure_is_classified Sample.os_path Sample.denied
              Sample.book Sample.two_sheets _ _ eq_refl eq_refl eq_refl)
    as (r & log & Hrun & Htrust & _).
  exists r, log. split; [exact Hrun | exact (Htrust eq_refl)].
Defined.

(** An enumeration interrupted at its second component. *)
Lemma failed_extraction_keeps_what_was_recorded_witness :
  path_exists Sample.broken Sample.book = true /\
  load_workbook Sample.broken Sample.book = Return Sample.two_sheets /\
  exists r log,
    analyze_excel_file (os_path := Sample.os_path) Sample.broken Sample.book
    = (Return r, log) /\
    (exists msg, vba_error r = Some msg) /\
    worksheets r = map sheet_info (Openpyxl.worksheets Sample.two_sheets) /\
    modules r <> [].
Proof.
  split; [reflexivity |]. split; [reflexivity |].
  assert (Hfail : exists e f,
             extraction (os_path := Sample.os_path) Sample.broken Sample.book
             = (Raise e, f))
    by (vm_compute; do 2 eexists; reflexivity).
  destruct Hfail as (e & f & Hfail).
  assert (Hsome : records_nothing (os_path := Sample.os_path)
                    Sample.broken Sample.book = false)
    by (vm_compute; reflexivity).
  destruct (@failed_extraction_keeps_what_was_recorded Sample.os_path
              Sample.broken Sample.book Sample.two_sheets e f
              eq_refl eq_refl Hfail)
    as (r & log & Hrun & Herr & Hws & _ & _ & _ & Hmods).
  exists r, log. repeat split; try assumption. exact (Hmods Hsome).
Defined.

(** C2 as stated fails: in the world where the source text of the second
    component cannot be read, extraction fails, and yet the result keeps
    two module records and one stored text. *)
Lemma interrupted_enumeration_leaves_entries :
  fst (extraction (os_path := Sample.os_path) Sample.broken Sample.book)
  = Raise (Exception "Call was rejected") /\
  exists r log,
    analyze_excel_file (os_path := Sample.os_path) Sample.broken Sample.book
    = (Return r, log) /\
    vba_error r = Some "Call was rejected" /\
    map ModuleInfo.name (modules r) = ["Sheet1"; "Module1"] /\
    Py.keys (module_code r) = ["Sheet1"] /\
    ~ (modules r = [] /\ module_code r = []).
Proof.
  split; [vm_compute; reflexivity |].
  vm_compute. do 2 eexists.
  split; [reflexivity |]. split; [reflexivity |]. split; [reflexivity |].
  split; [reflexivity |]. intros [H _]. discriminate H.
Qed.

(** The report of a result, next to the workbook. *)
Lemma report_written_at_derived_path_witness :
  let r := {| filename := "book.xlsm"; full_path := Sample.book;
              analysis_date := "2024-03-07 09:05:42";
              worksheets := []; modules := []; module_code := [];
              vba_error := None |} in
  open_w Sample.trusted "C:\docs\book_analysis_20240307_090542.txt"
  = Return tt /\
  save_analysis_to_file (os_path := Sample.os_path) Sample.trusted r None =
    (Return "C:\docs\book_analysis_20240307_090542.txt",
     [EvOpen "C:\docs\book_analysis_20240307_090542.txt" "w" "utf-8";
      EvFileClosed "C:\docs\book_analysis_20240307_090542.txt"
        (text_of (write_report r))]).
Proof.
  intros r. split; [reflexivity |].
  exact (proj1 (@report_written_at_derived_path Sample.os_path Sample.trusted
                  r None eq_refl)).
Defined.

(* ================================================================== *)
(** * Further properties of the run *)

(** ** The calls of a run *)

Lemma calls_app l1 l2 : calls (l1 ++ l2) = (calls l1 ++ calls l2)%list.
Proof. unfold calls. apply filter_app. Qed.

Lemma calls_snoc_call log e :
  is_snapshot e = false -> calls (log ++ [e]) = (calls log ++ [e])%list.
Proof.
  intros He. rewrite calls_app. unfold calls at 2. simpl. rewrite He.
  reflexivity.
Qed.

Lemma calls_snoc_snapshot log r : calls (log ++ [EvResults r]) = calls log.
Proof. rewrite calls_app. simpl. apply app_nil_r. Qed.

Lemma files_opened_app l1 l2 :
  files_opened (l1 ++ l2) = (files_opened l1 ++ files_opened l2)%list.
Proof.
  induction l1 as [| e l1 IH]; simpl; [reflexivity |].
  destruct e; simpl; rewrite ?IH; reflexivity.
Qed.

Lemma calls_kept_refl f : calls_kept f f.
Proof. reflexivity. Qed.

Lemma calls_kept_trans f g h :
  calls_kept f g -> calls_kept g h -> calls_kept f h.
Proof. unfold calls_kept. congruence. Qed.

Lemma calls_kept_update g : evolves calls_kept (update_results g).
Proof. intros f. unfold calls_kept. simpl. apply calls_snoc_snapshot. Qed.

(** The loop over the components makes no logged call. *)
Lemma calls_kept_enumeration steps :
  evolves calls_kept (for_in steps extract_component).
Proof.
  apply evolves_for_in.
  - apply calls_kept_refl.
  - apply calls_kept_trans.
  - intros c. apply evolves_extract_component.
    + apply calls_kept_refl.
    + apply calls_kept_trans.
    + intros i. apply calls_kept_update.
    + intros k code. apply calls_kept_update.
Qed.

(** The loop over the worksheets makes no logged call. *)
Lemma calls_kept_worksheets sheets :
  evolves calls_kept
    (for_each sheets
       (fun sheet => update_results (append_worksheet (sheet_info sheet)))).
Proof.
  apply evolves_for_each.
  - apply calls_kept_refl.
  - apply calls_kept_trans.
  - intros sheet. apply calls_kept_update.
Qed.

Section WholeRun.

Context {os_path : OsPath}.
Variable w : World.
Variable file_path : string.

(** The log of the reader on a workbook that loads. *)
Lemma reader_stage_calls wb :
  load_workbook w file_path = Return wb ->
  calls (trace (frame_at_extractor w file_path)) = [EvLoadWorkbook file_path].
Proof.
  intros Hload. unfold frame_at_extractor, reader_stage, bind, call.
  rewrite Hload.
  match goal with
  | |- context [for_each ?xs ?b ?f0] =>
      pose proof (calls_kept_worksheets xs f0) as Hk;
      destruct (for_each xs b f0) as [o g]
  end.
  unfold calls_kept in Hk. cbn [snd] in *. rewrite Hk. reflexivity.
Qed.

(** The log of the call is the log of the extractor stage. *)
Lemma analyze_excel_file_log wb :
  path_exists w file_path = true ->
  load_workbook w file_path = Return wb ->
  snd (analyze_excel_file w file_path)
  = trace (snd (extractor_stage w file_path (frame_at_extractor w file_path))).
Proof.
  intros Hex Hload. unfold analyze_excel_file. rewrite Hex. simpl negb.
  cbv iota.
  destruct (reader_stage_loaded w file_path Hload) as (Hr & Hx & _).
  unfold frame_at_extractor in *. unfold analyze_body, bind, get_results.
  destruct (reader_stage w file_path (initial_frame w file_path))
    as [[[] | e'] f1]; cbn [fst snd] in *; [| discriminate].
  destruct (extractor_stage_run w file_path f1 Hx) as [Hs _].
  destruct (extractor_stage w file_path f1) as [[[] | e'] f3];
    cbn [fst snd] in *; [reflexivity | discriminate].
Qed.

(** The extractor stage, spelled out on its [try] block. *)
Lemma extractor_stage_frame f :
  excel f = None ->
  snd (extractor_stage w file_path f) =
  snd (extractor_cleanup
         match extractor_body w file_path f with
         | (Return _, g) => g
         | (Raise e, g) => snd (extractor_handler e g)
         end).
Proof.
  intros Hex. unfold extractor_stage, bind.
  pose proof (excel_none_set f Hex) as Hset.
  destruct (set_excel None f) as [[[] | e0] f0] eqn:Hs; [| discriminate Hs].
  cbn [snd] in Hset. subst f0.
  unfold try_finally, try_except.
  destruct (extractor_body w file_path f) as [[[] | e] g].
  - destruct (extractor_cleanup g) as [[[] | e'] g']; reflexivity.
  - destruct (extractor_handler e g) as [o1 g1]. cbn [snd].
    destruct o1; destruct (extractor_cleanup g1) as [[[] | e'] g'];
      reflexivity.
Qed.

(** The [try] block that runs to its end has made the six calls of the
    session, in order, and has [excel] bound. *)
Lemma extractor_body_returned_calls f g :
  extractor_body w file_path f = (Return tt, g) ->
  (exists app, excel g = Some app) /\
  calls (trace g) =
    (calls (trace f) ++
     [EvCoInitialize; EvDispatch "Excel.Application";
      EvSetDisplayAlerts false; EvSetVisible false;
      EvWorkbooksOpen (abspath file_path) true; EvClose false])%list.
Proof.
  unfold extractor_body, create_excel_instance, bind, try_except, call,
    set_excel, lift, ret, raise. cbn [fst snd results excel trace].
  destruct (Dispatch w "Excel.Application") as [app |]; [| discriminate].
  destruct (set_DisplayAlerts app false) as [[] |]; [| discriminate].
  destruct (set_Visible app false) as [[] |]; [| discriminate].
  destruct (Workbooks_Open app (abspath file_path) true) as [wb_vba |];
    [| discriminate].
  destruct (VBProject_VBComponents wb_vba) as [steps |]; [| discriminate].
  match goal with
  | |- context [for_in steps extract_component ?f0] =>
      pose proof (calls_kept_enumeration steps f0) as Hk;
      pose proof (excel_kept_enumeration steps f0) as Hx;
      destruct (for_in steps extract_component f0) as [[[] | e] f2]
  end; [| discriminate].
  unfold calls_kept, excel_kept in *. cbn [snd results excel trace] in *.
  destruct (Close wb_vba false) as [[] |]; [| discriminate].
  intros H. injection H as <-. cbn [excel trace]. split.
  - exists app. exact Hx.
  - rewrite calls_snoc_call by reflexivity. rewrite Hk.
    rewrite !calls_snoc_call by reflexivity.
    rewrite <- !app_assoc. reflexivity.
Qed.

End WholeRun.

(** ** The session *)

(** When the [try] block runs to its end, the calls of the whole
    analysis are exactly these nine, in this order: the workbook is
    loaded, the session is started hidden and silent, the workbook is
    opened read-only under its absolute path, closed without saving, and
    the session is quit and the runtime released. *)
Theorem successful_run_makes_nine_calls
  {os_path : OsPath} (w : World) (file_path : string) wb :
  path_exists w file_path = true ->
  load_workbook w file_path = Return wb ->
  fst (extraction w file_path) = Return tt ->
  calls (snd (analyze_excel_file w file_path)) =
    [EvLoadWorkbook file_path; EvCoInitialize;
     EvDispatch "Excel.Application";
     EvSetDisplayAlerts false; EvSetVisible false;
     EvWorkbooksOpen (abspath file_path) true; EvClose false;
     EvQuit; EvCoUninitialize].
Proof.
  intros Hex Hload Hok.
  rewrite (analyze_excel_file_log w file_path Hex Hload).
  destruct (reader_stage_loaded w file_path Hload) as (_ & Hx & _).
  rewrite (extractor_stage_frame w file_path _ Hx).
  unfold extraction in Hok.
  destruct (extractor_body w file_path (frame_at_extractor w file_path))
    as [[[] | e] g] eqn:Hbody; [| discriminate].
  destruct (extractor_body_returned_calls w file_path _ Hbody)
    as [[app Happ] Hcalls].
  rewrite (extractor_cleanup_bound g Happ), calls_app, Hcalls.
  rewrite (reader_stage_calls w file_path Hload). reflexivity.
Qed.

(** Once the session is set up (the application is created and both of
    its properties are set), the analysis ends by quitting the
    application and releasing the runtime, however the [try] block ends
    and whether or not [Quit] itself raises. *)
Theorem session_set_up_is_always_released
  {os_path : OsPath} (w : World) (file_path : string) wb app :
  path_exists w file_path = true ->
  load_workbook w file_path = Return wb ->
  Dispatch w "Excel.Application" = Return app ->
  set_DisplayAlerts app false = Return tt ->
  set_Visible app false = Return tt ->
  exists before,
    snd (analyze_excel_file w file_path)
    = (before ++ [EvQuit; EvCoUninitialize])%list.
Proof.
  intros Hex Hload Hd Ha Hv.
  rewrite (analyze_excel_file_log w file_path Hex Hload).
  destruct (reader_stage_loaded w file_path Hload) as (_ & Hx & _).
  destruct (@cleanup_runs_once_session_is_set_up os_path w file_path app
              (frame_at_extractor w file_path) Hx Hd Ha Hv) as [before ->].
  exists (trace (frame_at_extractor w file_path) ++ before)%list.
  rewrite <- app_assoc. reflexivity.
Qed.

Lemma contains_after_wrapper s :
  Py.contains trust_phrase ("Could not create Excel instance: " ++ s)
  = Py.contains trust_phrase s.
Proof. reflexivity. Qed.

(** When the application cannot be created, the analysis still returns:
    the recorded error is the exception's text behind the prefix
    ["Could not create Excel instance: "] (or the trust-center message
    when that text contains the trust-center phrase), and no module is
    recorded. *)
Theorem creation_failure_is_reported
  {os_path : OsPath} (w : World) (file_path : string) wb e :
  path_exists w file_path = true ->
  load_workbook w file_path = Return wb ->
  Dispatch w "Excel.Application" = Raise e ->
  exists r log,
    analyze_excel_file w file_path = (Return r, log) /\
    vba_error r =
      Some (if Py.contains trust_phrase (str_of_exn e)
            then "VBA access not enabled in Excel Trust Center"
            else "Could not create Excel instance: " ++ str_of_exn e) /\
    modules r = [] /\ module_code r = [].
Proof.
  intros Hex Hload Hd.
  destruct (analyze_excel_file_loaded w file_path Hex Hload) as [log Hrun].
  destruct (reader_stage_loaded w file_path Hload) as (_ & _ & Hres).
  assert (Hbody :
    fst (extraction w file_path) =
      Raise (Exception ("Could not create Excel instance: " ++ str_of_exn e))
    /\ results (snd (extraction w file_path))
       = results (frame_at_extractor w file_path)).
  { unfold extraction, extractor_body, create_excel_instance, bind,
      try_except, call, raise. cbn [fst snd results excel trace].
    rewrite Hd. split; reflexivity. }
  destruct Hbody as [Hraise Hkept].
  rewrite Hraise, Hkept, Hres in Hrun.
  eexists. exists log. split; [exact Hrun |].
  cbn [vba_error modules module_code set_vba_error str_of_exn].
  unfold classify. rewrite contains_after_wrapper.
  destruct (Py.contains trust_phrase (str_of_exn e)); auto.
Qed.

(** ** The result of a run *)

(** A result carries no ['vba_error'] exactly when the [try] block ran to
    its end: the key tells success from failure. *)
Theorem vba_error_absent_iff_extraction_succeeded
  {os_path : OsPath} (w : World) (file_path : string) r log :
  analyze_excel_file w file_path = (Return r, log) ->
  (vba_error r = None <-> fst (extraction w file_path) = Return tt).
Proof.
  intros Hrun. split.
  - intros Hnone.
    destruct (analyze_excel_file_returned w file_path Hrun)
      as (Hex & wb & Hload).
    destruct (analyze_excel_file_loaded w file_path Hex Hload) as [log' H].
    rewrite Hrun in H. injection H as Hr _.
    destruct (fst (extraction w file_path)) as [[] | e]; [reflexivity |].
    rewrite Hr in Hnone. discriminate.
  - intros Hok.
    apply (analyze_excel_file_extracted w file_path Hrun Hok).
Qed.

(** The file information of a result is fixed before any analysis and
    never touched again: the name is the base name of the path, the path
    is the one given, and the date is the clock value printed as
    [YYYY-MM-DD HH:MM:SS] (19 characters for a clock value in range). *)
Theorem file_information_is_fixed
  {os_path : OsPath} (w : World) (file_path : string) r log :
  analyze_excel_file w file_path = (Return r, log) ->
  let now := now_at_analysis w in
  filename r = basename file_path /\
  full_path r = file_path /\
  analysis_date r =
    Py.zfill 4 (year now) ++ "-" ++ Py.zfill 2 (month now) ++ "-"
    ++ Py.zfill 2 (day now) ++ " " ++ Py.zfill 2 (hour now) ++ ":"
    ++ Py.zfill 2 (minute now) ++ ":" ++ Py.zfill 2 (second now) /\
  (valid_datetime now -> String.length (analysis_date r) = 19%nat).
Proof.
  intros Hrun now.
  destruct (analyze_excel_file_returned w file_path Hrun)
    as (Hex & wb & Hload).
  destruct (analyze_excel_file_loaded w file_path Hex Hload) as [log' H].
  rewrite Hrun in H. injection H as Hr _.
  destruct (reader_stage_loaded w file_path Hload) as (_ & _ & Hres).
  pose proof (reader_fields_kept_extractor_body w file_path
                (frame_at_extractor w file_path)) as (Hf & Hp & Hd & _).
  fold (extraction w file_path) in Hf, Hp, Hd.
  rewrite Hres in Hf, Hp, Hd. cbn [filename full_path analysis_date] in *.
  assert (Hfields : filename r = basename file_path /\
                    full_path r = file_path /\
                    analysis_date r
                    = strftime "%Y-%m-%d %H:%M:%S" (now_at_analysis w)).
  { rewrite Hr. destruct (fst (extraction w file_path)); simpl; auto. }
  destruct Hfields as (H1 & H2 & H3).
  assert (Hdate : strftime "%Y-%m-%d %H:%M:%S" (now_at_analysis w) =
    Py.zfill 4 (year now) ++ "-" ++ Py.zfill 2 (month now) ++ "-"
    ++ Py.zfill 2 (day now) ++ " " ++ Py.zfill 2 (hour now) ++ ":"
    ++ Py.zfill 2 (minute now) ++ ":" ++ Py.zfill 2 (second now)).
  { simpl. rewrite append_nil_r. reflexivity. }
  rewrite H3, Hdate. repeat split; auto.
  intros (Hy & Hm & Hdd & HH & HM & HS).
  assert (L4 := @zfill4_length (year now)).
  assert (Lm := @zfill2_length (month now)).
  assert (Ld := @zfill2_length (day now)).
  assert (LH := @zfill2_length (hour now)).
  assert (LM := @zfill2_length (minute now)).
  assert (LS := @zfill2_length (second now)).
  rewrite !append_length. simpl. lia.
Qed.

(** When the [try] block runs to its end, the modules list has one record
    per component of the collection, in the order of the enumeration, and
    each record carries the name, the type code and the line count read
    from its component. *)
Theorem modules_follow_enumeration
  {os_path : OsPath} (w : World) (file_path : string) r log :
  analyze_excel_file w file_path = (Return r, log) ->
  fst (extraction w file_path) = Return tt ->
  length (modules r) = length (enumerated w file_path) /\
  forall i step,
    nth_error (enumerated w file_path) i = Some step ->
    exists c cm m,
      step = Return c /\
      nth_error (modules r) i = Some m /\
      Name c = Return (ModuleInfo.name m) /\
      Type_ c = Return (ModuleInfo.type_ m) /\
      CodeModule c = Return cm /\
      CountOfLines cm = Return (ModuleInfo.code_lines m).
Proof.
  intros Hrun Hok.
  destruct (analyze_excel_file_extracted w file_path Hrun Hok)
    as (_ & entries & Hys & Hms & _).
  rewrite Hms. split.
  - rewrite length_map. symmetry. apply (Forall2_length_eq Hys).
  - intros i step Hi.
    destruct (Forall2_nth_left Hys i Hi) as (entry & Hentry & Hy).
    destruct Hy as (c & cm & -> & Hn & Ht & Hcm & Hcount & _).
    exists c, cm, (fst entry).
    rewrite nth_error_map, Hentry. simpl. auto 6.
Qed.




(** ** What the analysis never does *)

Lemma calls_within_refl P f : calls_within P f f.
Proof. intros H; exact H. Qed.

Lemma calls_within_trans P f g h :
  calls_within P f g -> calls_within P g h -> calls_within P f h.
Proof. unfold calls_within. auto. Qed.

Lemma calls_within_kept P f g : calls_kept f g -> calls_within P f g.
Proof. unfold calls_kept, calls_within. intros ->. auto. Qed.

Lemma calls_within_call (P : Event -> Prop) A e (o : outcome A) :
  P e -> evolves (calls_within P) (call e o).
Proof.
  intros He f Hf. unfold call. cbn [snd trace]. rewrite calls_app.
  apply Forall_app. split; [exact Hf |].
  unfold calls. simpl. destruct (is_snapshot e); simpl; auto.
Qed.

Lemma calls_within_update P g : evolves (calls_within P) (update_results g).
Proof. intros f. apply calls_within_kept. apply calls_kept_update. Qed.

Lemma calls_within_still P A (m : M Frame A) :
  (forall f, trace (snd (m f)) = trace f) -> evolves (calls_within P) m.
Proof. intros H f. unfold calls_within. rewrite H. auto. Qed.

Lemma calls_within_bind P A B (m : M Frame A) (k : A -> M Frame B) :
  evolves (calls_within P) m -> (forall a, evolves (calls_within P) (k a)) ->
  evolves (calls_within P) (bind m k).
Proof. apply evolves_bind. apply calls_within_trans. Qed.

Lemma calls_within_try_except P A (m : M Frame A) (h : exn -> M Frame A) :
  evolves (calls_within P) m -> (forall e, evolves (calls_within P) (h e)) ->
  evolves (calls_within P) (try_except m h).
Proof. apply evolves_try_except. apply calls_within_trans. Qed.

Lemma calls_within_try_finally P A (m : M Frame A) (fin : M Frame unit) :
  evolves (calls_within P) m -> evolves (calls_within P) fin ->
  evolves (calls_within P) (try_finally m fin).
Proof. apply evolves_try_finally. apply calls_within_trans. Qed.

Section Allowed.

Context {os_path : OsPath}.
Variable w : World.
Variable file_path : string.

Let P := session_call file_path (abspath file_path).

Ltac allowed := unfold P, session_call; simpl; tauto.

Lemma calls_within_enumeration steps :
  evolves (calls_within P) (for_in steps extract_component).
Proof. intros f. apply calls_within_kept. apply calls_kept_enumeration. Qed.

Lemma calls_within_worksheets sheets :
  evolves (calls_within P)
    (for_each sheets
       (fun sheet => update_results (append_worksheet (sheet_info sheet)))).
Proof. intros f. apply calls_within_kept. apply calls_kept_worksheets. Qed.

Lemma calls_within_extractor_body :
  evolves (calls_within P) (extractor_body w file_path).
Proof.
  unfold extractor_body, create_excel_instance.
  repeat first
    [ apply calls_within_enumeration
    | apply calls_within_still; intros ?; reflexivity
    | apply calls_within_call; allowed
    | apply calls_within_bind; [| intros ?]
    | apply calls_within_try_except; [| intros ?] ].
Qed.

Lemma calls_within_extractor_stage :
  evolves (calls_within P) (extractor_stage w file_path).
Proof.
  unfold extractor_stage.
  apply calls_within_bind;
    [apply calls_within_still; intros ?; reflexivity | intros _].
  apply calls_within_try_finally.
  - apply calls_within_try_except;
      [apply calls_within_extractor_body | intros e].
    unfold extractor_handler. destruct (Py.contains _ _);
      apply calls_within_update.
  - unfold extractor_cleanup.
    apply calls_within_bind;
      [apply calls_within_still; intros ?; reflexivity | intros [app |]].
    + apply calls_within_bind; [| intros _; apply calls_within_call; allowed].
      apply calls_within_try_except;
        [apply calls_within_call; allowed | intros _].
      apply calls_within_still; intros ?; reflexivity.
    + apply calls_within_still; intros ?; reflexivity.
Qed.

Lemma calls_within_analyze_body :
  evolves (calls_within P) (analyze_body w file_path).
Proof.
  unfold analyze_body, reader_stage.
  apply calls_within_bind; [| intros _].
  - apply calls_within_bind;
      [apply calls_within_call; allowed | intros wb].
    apply calls_within_worksheets.
  - apply calls_within_bind;
      [apply calls_within_extractor_stage | intros _].
    apply calls_within_still; intros ?; reflexivity.
Qed.

End Allowed.

(** Whatever the world, every call the analysis makes is one of: load the
    workbook, initialize the runtime, create the application, switch its
    alerts off, hide it, open the workbook read-only under its absolute
    path, close it without saving, quit, release the runtime.  So the
    workbook is never opened for writing and never saved, and the
    application is never shown. *)
Theorem analysis_only_reads_the_workbook
  {os_path : OsPath} (w : World) (file_path : string) :
  Forall (session_call file_path (abspath file_path))
         (calls (snd (analyze_excel_file w file_path))).
Proof.
  unfold analyze_excel_file.
  destruct (negb (path_exists w file_path)); [constructor |].
  pose proof (@calls_within_analyze_body os_path w file_path
                (initial_frame w file_path)) as H.
  destruct (analyze_body w file_path (initial_frame w file_path)) as [o f].
  apply H. simpl. constructor.
Qed.

(** ** [main], case by case *)

Section MainRuns.

Context {os_path : OsPath}.
Variable w : World.
Variable file_path : string.

Hypothesis picked : askopenfilename w = file_path.
Hypothesis selected : file_path <> "".

(** [main] once a file is selected: the analysis, then the report, then
    the notice. *)
Lemma main_selected :
  main w =
  snd (try_except
         (results <- run (analyze_excel_file w file_path) ;;
          output_file <- run (save_analysis_to_file w results None) ;;
          emit (EvShowInfo "Analysis Complete"
                  ("Analysis has been saved to:" ++ nl ++ output_file)))
         (fun e =>
            emit (EvShowError "Error"
                    ("An error occurred: " ++ str_of_exn e)))
         [EvAskOpenFilename]).
Proof.
  unfold main, select_file, try_except, bind, emit, ret, run.
  cbn beta iota delta [app]. rewrite picked.
  destruct (String.eqb_spec file_path ""); [contradiction |].
  reflexivity.
Qed.

End MainRuns.

(** When the selected workbook exists but cannot be loaded, the analysis
    raises the reader's exception right after the load attempt, without
    starting a session, and [main] shows the error dialog with that
    exception's text and opens no file. *)
Theorem unreadable_workbook_is_fatal
  {os_path : OsPath} (w : World) (file_path : string) e :
  path_exists w file_path = true ->
  load_workbook w file_path = Raise e ->
  analyze_excel_file w file_path =
    (Raise e, [EvResults (initial_results w file_path);
               EvLoadWorkbook file_path]) /\
  (askopenfilename w = file_path -> file_path <> "" ->
   calls (main w) =
     [EvAskOpenFilename; EvLoadWorkbook file_path;
      EvShowError "Error" ("An error occurred: " ++ str_of_exn e)] /\
   files_opened (main w) = []).
Proof.
  intros Hex Hload.
  assert (Hrun : analyze_excel_file w file_path =
                 (Raise e, [EvResults (initial_results w file_path);
                            EvLoadWorkbook file_path])).
  { unfold analyze_excel_file. rewrite Hex. cbn [negb].
    unfold analyze_body, reader_stage, bind, call, initial_frame.
    cbn [trace results excel]. rewrite Hload. reflexivity. }
  split; [exact Hrun |].
  intros Hpick Hsel. rewrite (main_selected w Hpick Hsel).
  unfold try_except, bind, run, emit. rewrite Hrun. split; reflexivity.
Qed.

(** When the analysis of the selected workbook returns and the output
    file can be opened, [main] does exactly this: the dialog, the
    analysis, one file opened at the derived path next to the workbook
    and closed holding the report, and the information dialog naming that
    path.  This holds whether or not macro extraction failed. *)
Theorem main_writes_one_report_and_notifies
  {os_path : OsPath} (w : World) (file_path : string) r log :
  askopenfilename w = file_path ->
  file_path <> "" ->
  analyze_excel_file w file_path = (Return r, log) ->
  open_w w (output_path w r None) = Return tt ->
  main w =
    (EvAskOpenFilename :: log ++
     [EvOpen (output_path w r None) "w" "utf-8";
      EvFileClosed (output_path w r None) (text_of (write_report r));
      EvShowInfo "Analysis Complete"
        ("Analysis has been saved to:" ++ nl ++ output_path w r None)])%list.
Proof.
  intros Hpick Hsel Hrun Hopen. rewrite (main_selected w Hpick Hsel).
  unfold try_except, bind, run, emit. rewrite Hrun. cbn [fst snd].
  unfold save_analysis_to_file. rewrite Hopen. unfold text_of.
  destruct (write_report r "") as [o text]. cbn [fst snd].
  rewrite <- !app_assoc. reflexivity.
Qed.

(** When the output file cannot be opened, [main] shows the error dialog
    with the exception's text instead of the information dialog, and no
    report text is written. *)
Theorem unwritable_report_is_reported
  {os_path : OsPath} (w : World) (file_path : string) r log e :
  askopenfilename w = file_path ->
  file_path <> "" ->
  analyze_excel_file w file_path = (Return r, log) ->
  open_w w (output_path w r None) = Raise e ->
  main w =
    (EvAskOpenFilename :: log ++
     [EvOpen (output_path w r None) "w" "utf-8";
      EvShowError "Error" ("An error occurred: " ++ str_of_exn e)])%list.
Proof.
  intros Hpick Hsel Hrun Hopen. rewrite (main_selected w Hpick Hsel).
  unfold try_except, bind, run, emit. rewrite Hrun. cbn [fst snd].
  unfold save_analysis_to_file. rewrite Hopen. cbn [fst snd].
  rewrite <- !app_assoc. reflexivity.
Qed.

(** ** The totals of the report *)

Lemma prefix_app (a b : string) : String.prefix a (a ++ b) = true.
Proof.
  induction a as [| x a IH]; simpl; [destruct b; reflexivity |].
  destruct (ascii_dec x x); [exact IH | contradiction].
Qed.

Lemma contains_prefix (n h : string) :
  String.prefix n h = true -> Py.contains n h = true.
Proof. intros H. destruct h; cbn [Py.contains]; rewrite H; reflexivity. Qed.

Lemma contains_here (n b : string) : Py.contains n (n ++ b) = true.
Proof. apply contains_prefix, prefix_app. Qed.

Lemma contains_later (n a h : string) :
  Py.contains n h = true -> Py.contains n (a ++ h) = true.
Proof.
  intros H. induction a as [| x a IH]; simpl; [exact H |].
  rewrite IH. apply orb_true_r.
Qed.

Lemma write_report_text (r : Results) :
  text_of (write_report r) =
    text_of write_banner ++
    text_of (write_file_information r) ++
    text_of (write_worksheet_information r) ++
    match vba_error r with
    | Some msg => text_of (write_vba_error msg)
    | None => text_of (write_module_information r) ++
              text_of (write_module_code r)
    end.
Proof.
  unfold write_report.
  assert (Hlast : appends
            match vba_error r with
            | Some msg => write_vba_error msg
            | None => write_module_information r ;; write_module_code r
            end).
  { destruct (vba_error r).
    - apply appends_vba_error.
    - apply appends_bind;
        [apply appends_module_information | apply appends_module_code]. }
  destruct (appends_seq (appends_worksheet_information r) Hlast) as [H3 T3].
  destruct (appends_seq (appends_file_information r) H3) as [H2 T2].
  destruct (appends_seq appends_banner H2) as [_ T1].
  rewrite T1, T2, T3. do 3 f_equal.
  destruct (vba_error r); [reflexivity |].
  apply appends_seq;
    [apply appends_module_information | apply appends_module_code].
Qed.

(** The text of a section whose third write is a line. *)
Lemma section_line (title line : string) (rest : M string unit) :
  appends rest ->
  text_of (write (title ++ nl) ;; write (Py.repeat "-" 50 ++ nl) ;;
           write line ;; rest)
  = heading title ++ line ++ text_of rest.
Proof.
  intros Hrest.
  destruct (appends_seq (appends_write line) Hrest) as [H T].
  rewrite (section_starts title H), T. reflexivity.
Qed.

(** The report states the number of worksheets of the result, and, when
    no error is recorded, the number of its modules: it contains the
    lines [Total Worksheets: <len(worksheets)>] and
    [Total Modules: <len(modules)>]. *)
Theorem report_states_the_totals (r : Results) :
  Py.contains
    ("Total Worksheets: "
     ++ Py.str_of_int (Z.of_nat (length (worksheets r))) ++ nl)
    (text_of (write_report r)) = true /\
  (vba_error r = None ->
   Py.contains
     ("Total Modules: "
      ++ Py.str_of_int (Z.of_nat (length (modules r))) ++ nl)
     (text_of (write_report r)) = true).
Proof.
  rewrite write_report_text. split.
  - do 2 apply contains_later.
    unfold write_worksheet_information.
    rewrite section_line by appends_steps.
    rewrite append_assoc. apply contains_later.
    rewrite append_assoc. apply contains_here.
  - intros ->. do 3 apply contains_later.
    unfold write_module_information.
    rewrite section_line by appends_steps.
    rewrite append_assoc. apply contains_later.
    rewrite append_assoc. apply contains_here.
Qed.

(** ** The entries of the report *)

Lemma prefix_app_r (n a b : string) :
  String.prefix n a = true -> String.prefix n (a ++ b) = true.
Proof.
  revert a. induction n as [| c n IH]; intros a H;
    [destruct (a ++ b); reflexivity |].
  destruct a as [| x a]; simpl in *; [discriminate |].
  destruct (ascii_dec c x); [apply IH; exact H | discriminate].
Qed.

Lemma contains_earlier (n a b : string) :
  Py.contains n a = true -> Py.contains n (a ++ b) = true.
Proof.
  induction a as [| x a IH]; cbn [Py.contains append]; intros H.
  - rewrite orb_false_r in H. apply contains_prefix.
    apply (prefix_app_r n "" b H).
  - apply orb_true_iff in H as [H | H].
    + pose proof (prefix_app_r n (String x a) b H) as H'.
      cbn [append] in H'. rewrite H'. reflexivity.
    + rewrite (IH H). apply orb_true_r.
Qed.

Lemma contains_self (n : string) : Py.contains n n = true.
Proof. rewrite <- (append_nil_r n) at 2. apply contains_here. Qed.

(** What one pass of a loop writes is part of what the loop writes. *)
Lemma contains_for_each A (xs : list A) (body : A -> M string unit) n x :
  (forall y, appends (body y)) ->
  In x xs ->
  Py.contains n (text_of (body x)) = true ->
  Py.contains n (text_of (for_each xs body)) = true.
Proof.
  intros Hb Hin Hx. induction xs as [| x0 xs IH]; [contradiction |].
  simpl for_each.
  destruct (appends_seq (Hb x0) (appends_for_each xs body Hb)) as [_ ->].
  destruct Hin as [-> | Hin].
  - apply contains_earlier. exact Hx.
  - apply contains_later. apply IH. exact Hin.
Qed.

(** Every worksheet entry of the result has its block in the report:
    the sheet's name, its content flag printed as [True] or [False], and
    its print area, on three lines after a blank one. *)
Theorem report_lists_every_worksheet (r : Results) (sheet : SheetInfo.t) :
  In sheet (worksheets r) ->
  Py.contains
    (nl ++ "Sheet Name: " ++ SheetInfo.name sheet ++ nl
     ++ "Has Content: "
     ++ (if SheetInfo.has_content sheet then "True" else "False") ++ nl
     ++ "Print Area: " ++ SheetInfo.print_area sheet ++ nl)
    (text_of (write_report r)) = true.
Proof.
  intros Hin. rewrite write_report_text.
  do 2 apply contains_later. apply contains_earlier.
  unfold write_worksheet_information.
  rewrite section_line by appends_steps.
  do 2 apply contains_later.
  match goal with
  | |- context [for_each ?xs ?b ;; ?k] =>
      assert (Hb : forall y, appends (b y)) by (intros y; appends_steps);
      destruct (appends_seq (appends_for_each xs b Hb)
                  (appends_write nl)) as [_ ->];
      apply contains_earlier;
      apply (contains_for_each xs b _ sheet Hb Hin)
  end.
  match goal with
  | |- context [text_of (write ?a ;; write ?b ;; write ?c)] =>
      destruct (appends_seq (appends_write b) (appends_write c)) as [H2 T2];
      destruct (appends_seq (appends_write a) H2) as [_ T1];
      rewrite T1, T2
  end.
  unfold text_of, write. cbn [snd append]. unfold Py.str_of_bool.
  rewrite ?append_assoc. cbn [append]. rewrite ?append_assoc.
  apply contains_self.
Qed.

(** When no error is recorded, every module record has its block in the
    report (name, type code, line count) and every entry of [module_code]
    has its listing: the name, a rule of as many dashes as the name has
    characters, and the stored text. *)
Theorem report_lists_every_module (r : Results) :
  vba_error r = None ->
  (forall m, In m (modules r) ->
     Py.contains
       (nl ++ "Module Name: " ++ ModuleInfo.name m ++ nl
        ++ "Type: " ++ Py.str_of_int (ModuleInfo.type_ m) ++ nl
        ++ "Code Lines: " ++ Py.str_of_int (ModuleInfo.code_lines m) ++ nl)
       (text_of (write_report r)) = true) /\
  (forall name code, In (name, code) (module_code r) ->
     Py.contains
       (nl ++ name ++ nl
        ++ Py.repeat "-" (String.length name) ++ nl
        ++ code ++ nl ++ nl)
       (text_of (write_report r)) = true).
Proof.
  intros Hnone. rewrite write_report_text, Hnone. split.
  - intros m Hin. do 3 apply contains_later. apply contains_earlier.
    unfold write_module_information.
    rewrite section_line by appends_steps.
    do 2 apply contains_later.
    match goal with
    | |- context [for_each ?xs ?b ;; ?k] =>
        assert (Hb : forall y, appends (b y)) by (intros y; appends_steps);
        destruct (appends_seq (appends_for_each xs b Hb)
                    (appends_write nl)) as [_ ->];
        apply contains_earlier;
        apply (contains_for_each xs b _ m Hb Hin)
    end.
    match goal with
    | |- context [text_of (write ?a ;; write ?b ;; write ?c)] =>
        destruct (appends_seq (appends_write b) (appends_write c))
          as [H2 T2];
        destruct (appends_seq (appends_write a) H2) as [_ T1];
        rewrite T1, T2
    end.
    unfold text_of, write. cbn [snd append].
    rewrite ?append_assoc. cbn [append]. rewrite ?append_assoc.
    apply contains_self.
  - intros name code Hin. do 4 apply contains_later.
    unfold write_module_code.
    match goal with
    | |- context [for_each ?xs ?b] =>
        assert (Hb : forall y, appends (b y))
          by (intros [y1 y2]; appends_steps);
        rewrite (section_starts "VBA MODULE CODE"
                   (appends_for_each xs b Hb));
        apply contains_later;
        apply (contains_for_each xs b _ (name, code) Hb Hin)
    end.
    cbn beta iota.
    match goal with
    | |- context [text_of (write ?a ;; write ?b ;; write ?c ;; write ?d)] =>
        destruct (appends_seq (appends_write c) (appends_write d))
          as [H3 T3];
        destruct (appends_seq (appends_write b) H3) as [H2 T2];
        destruct (appends_seq (appends_write a) H2) as [_ T1];
        rewrite T1, T2, T3
    end.
    unfold text_of, write. cbn [snd append].
    rewrite ?append_assoc. cbn [append]. rewrite ?append_assoc.
    apply contains_self.
Qed.

(** When an error is recorded, the report does not depend on the module
    records or texts gathered before the failure: two results that agree
    on the file information, the worksheets and the error have the same
    report. *)
Theorem error_report_ignores_modules (r r' : Results) msg :
  vba_error r = Some msg ->
  vba_error r' = Some msg ->
  filename r' = filename r ->
  full_path r' = full_path r ->
  analysis_date r' = analysis_date r ->
  worksheets r' = worksheets r ->
  text_of (write_report r') = text_of (write_report r).
Proof.
  intros He He' Hf Hp Hd Hw.
  rewrite !write_report_text, He, He'.
  unfold write_file_information, write_worksheet_information.
  rewrite Hf, Hp, Hd, Hw. reflexivity.
Qed.

(** ** The further properties at concrete inputs *)

Lemma successful_run_makes_nine_calls_witness :
  path_exists Sample.trusted Sample.book = true /\
  load_workbook Sample.trusted Sample.book = Return Sample.two_sheets /\
  fst (extraction (os_path := Sample.os_path) Sample.trusted Sample.book)
  = Return tt /\
  calls (snd (analyze_excel_file (os_path := Sample.os_path)
                Sample.trusted Sample.book)) =
    [EvLoadWorkbook Sample.book; EvCoInitialize;
     EvDispatch "Excel.Application";
     EvSetDisplayAlerts false; EvSetVisible false;
     EvWorkbooksOpen Sample.book true; EvClose false;
     EvQuit; EvCoUninitialize].
Proof.
  assert (Hok : fst (extraction (os_path := Sample.os_path)
                       Sample.trusted Sample.book) = Return tt)
    by (vm_compute; reflexivity).
  split; [reflexivity |]. split; [reflexivity |]. split; [exact Hok |].
  exact (@successful_run_makes_nine_calls Sample.os_path Sample.trusted
           Sample.book Sample.two_sheets eq_refl eq_refl Hok).
Defined.

Lemma session_set_up_is_always_released_witness :
  path_exists Sample.broken Sample.book = true /\
  load_workbook Sample.broken Sample.book = Return Sample.two_sheets /\
  exists before,
    snd (analyze_excel_file (os_path := Sample.os_path)
           Sample.broken Sample.book)
    = (before ++ [EvQuit; EvCoUninitialize])%list.
Proof.
  split; [reflexivity |]. split; [reflexivity |].
  exact (@session_set_up_is_always_released Sample.os_path Sample.broken
           Sample.book Sample.two_sheets
           (Sample.app (Return
              [Return Sample.Sheet1;
               Return (Sample.unreadable "Module1" 1 2 "Call was rejected")]))
           eq_refl eq_refl eq_refl eq_refl eq_refl).
Defined.

Lemma creation_failure_is_reported_witness :
  path_exists Sample.no_excel Sample.book = true /\
  load_workbook Sample.no_excel Sample.book = Return Sample.two_sheets /\
  Dispatch Sample.no_excel "Excel.Application"
  = Raise (Exception "Invalid class string") /\
  exists r log,
    analyze_excel_file (os_path := Sample.os_path)
      Sample.no_excel Sample.book = (Return r, log) /\
    vba_error r
    = Some "Could not create Excel instance: Invalid class string" /\
    modules r = [] /\ module_code r = [].
Proof.
  split; [reflexivity |]. split; [reflexivity |]. split; [reflexivity |].
  exact (@creation_failure_is_reported Sample.os_path Sample.no_excel
           Sample.book Sample.two_sheets (Exception "Invalid class string")
           eq_refl eq_refl eq_refl).
Defined.

Lemma vba_error_absent_iff_extraction_succeeded_witness :
  exists r log,
    analyze_excel_file (os_path := Sample.os_path)
      Sample.trusted Sample.book = (Return r, log) /\
    (vba_error r = None <->
     fst (extraction (os_path := Sample.os_path) Sample.trusted Sample.book)
     = Return tt).
Proof.
  assert (Hrun : exists r log,
             analyze_excel_file (os_path := Sample.os_path)
               Sample.trusted Sample.book = (Return r, log))
    by (vm_compute; do 2 eexists; reflexivity).
  destruct Hrun as (r & log & Hrun).
  exists r, log. split; [exact Hrun |].
  exact (vba_error_absent_iff_extraction_succeeded _ _ Hrun).
Defined.

Lemma file_information_is_fixed_witness :
  exists r log,
    analyze_excel_file (os_path := Sample.os_path)
      Sample.denied Sample.book = (Return r, log) /\
    filename r = "book.xlsm" /\
    full_path r = Sample.book.
Proof.
  assert (Hrun : exists r log,
             analyze_excel_file (os_path := Sample.os_path)
               Sample.denied Sample.book = (Return r, log))
    by (vm_compute; do 2 eexists; reflexivity).
  destruct Hrun as (r & log & Hrun).
  exists r, log. split; [exact Hrun |].
  destruct (file_information_is_fixed _ _ Hrun) as (Hf & Hp & _).
  split; [exact Hf | exact Hp].
Defined.

Lemma modules_follow_enumeration_witness :
  exists r log,
    analyze_excel_file (os_path := Sample.os_path)
      Sample.trusted Sample.book = (Return r, log) /\
    fst (extraction (os_path := Sample.os_path) Sample.trusted Sample.book)
    = Return tt /\
    length (modules r) = 2%nat.
Proof.
  assert (Hrun : exists r log,
             analyze_excel_file (os_path := Sample.os_path)
               Sample.trusted Sample.book = (Return r, log))
    by (vm_compute; do 2 eexists; reflexivity).
  destruct Hrun as (r & log & Hrun).
  assert (Hok : fst (extraction (os_path := Sample.os_path)
                       Sample.trusted Sample.book) = Return tt)
    by (vm_compute; reflexivity).
  exists r, log. split; [exact Hrun |]. split; [exact Hok |].
  exact (proj1 (modules_follow_enumeration _ _ Hrun Hok)).
Defined.


Lemma unreadable_workbook_is_fatal_witness :
  path_exists Cases.corrupt Sample.book = true /\
  load_workbook Cases.corrupt Sample.book
  = Raise (Exception "File is not a zip file") /\
  calls (main (os_path := Sample.os_path) Cases.corrupt) =
    [EvAskOpenFilename; EvLoadWorkbook Sample.book;
     EvShowError "Error" "An error occurred: File is not a zip file"] /\
  files_opened (main (os_path := Sample.os_path) Cases.corrupt) = [].
Proof.
  split; [reflexivity |]. split; [reflexivity |].
  refine (proj2 (@unreadable_workbook_is_fatal Sample.os_path Cases.corrupt
                   Sample.book (Exception "File is not a zip file")
                   eq_refl eq_refl) eq_refl _).
  discriminate.
Defined.

Lemma main_writes_one_report_and_notifies_witness :
  exists r log,
    analyze_excel_file (os_path := Sample.os_path)
      Sample.trusted Sample.book = (Return r, log) /\
    files_opened (main (os_path := Sample.os_path) Sample.trusted)
    = ["C:\docs\book_analysis_20240307_090542.txt"].
Proof.
  assert (Hrun : exists r log,
             analyze_excel_file (os_path := Sample.os_path)
               Sample.trusted Sample.book = (Return r, log) /\
             filename r = "book.xlsm" /\ full_path r = Sample.book /\
             files_opened log = [])
    by (vm_compute; do 2 eexists; repeat split; reflexivity).
  destruct Hrun as (r & log & Hrun & Hf & Hp & Hlog).
  exists r, log. split; [exact Hrun |].
  assert (Hsel : Sample.book <> "") by discriminate.
  rewrite (@main_writes_one_report_and_notifies Sample.os_path
             Sample.trusted Sample.book r log eq_refl Hsel Hrun eq_refl).
  cbn [files_opened]. rewrite files_opened_app, Hlog.
  unfold output_path. rewrite Hf, Hp. reflexivity.
Defined.

Lemma unwritable_report_is_reported_witness :
  exists r log,
    analyze_excel_file (os_path := Sample.os_path)
      Cases.read_only_folder Sample.book = (Return r, log) /\
    main (os_path := Sample.os_path) Cases.read_only_folder =
      (EvAskOpenFilename :: log ++
       [EvOpen (output_path (os_path := Sample.os_path)
                  Cases.read_only_folder r None) "w" "utf-8";
        EvShowError "Error" "An error occurred: Permission denied"])%list.
Proof.
  assert (Hrun : exists r log,
             analyze_excel_file (os_path := Sample.os_path)
               Cases.read_only_folder Sample.book = (Return r, log))
    by (vm_compute; do 2 eexists; reflexivity).
  destruct Hrun as (r & log & Hrun).
  exists r, log. split; [exact Hrun |].
  assert (Hsel : Sample.book <> "") by discriminate.
  exact (@unwritable_report_is_reported Sample.os_path
           Cases.read_only_folder Sample.book r log
           (Exception "Permission denied") eq_refl Hsel Hrun eq_refl).
Defined.

Lemma report_lists_every_worksheet_witness :
  let sheet := {| SheetInfo.name := "Sheet1"; SheetInfo.has_content := true;
                  SheetInfo.print_area := "Not Set" |} in
  let r := {| filename := "book.xlsm"; full_path := Sample.book;
              analysis_date := "2024-03-07 09:05:42";
              worksheets := [sheet]; modules := []; module_code := [];
              vba_error := None |} in
  In sheet (worksheets r) /\
  Py.contains
    (nl ++ "Sheet Name: Sheet1" ++ nl ++ "Has Content: True" ++ nl
     ++ "Print Area: Not Set" ++ nl)
    (text_of (write_report r)) = true.
Proof.
  intros sheet r.
  assert (Hin : In sheet (worksheets r)) by (simpl; auto).
  split; [exact Hin |].
  exact (report_lists_every_worksheet r sheet Hin).
Defined.

Lemma report_lists_every_module_witness :
  let m := {| ModuleInfo.name := "Module1"; ModuleInfo.type_ := 1;
              ModuleInfo.code_lines := 2 |} in
  let r := {| filename := "book.xlsm"; full_path := Sample.book;
              analysis_date := "2024-03-07 09:05:42";
              worksheets := []; modules := [m];
              module_code := [("Module1", "Sub A()")];
              vba_error := None |} in
  vba_error r = None /\
  Py.contains
    (nl ++ "Module1" ++ nl ++ "-------" ++ nl ++ "Sub A()" ++ nl ++ nl)
    (text_of (write_report r)) = true.
Proof.
  intros m r. split; [reflexivity |].
  refine (proj2 (@report_lists_every_module r eq_refl) "Module1" "Sub A()" _).
  simpl. auto.
Defined.

Lemma error_report_ignores_modules_witness :
  let r := {| filename := "book.xlsm"; full_path := Sample.book;
              analysis_date := "2024-03-07 09:05:42";
              worksheets := []; modules := []; module_code := [];
              vba_error := Some "Call was rejected" |} in
  let r' := {| filename := "book.xlsm"; full_path := Sample.book;
               analysis_date := "2024-03-07 09:05:42";
               worksheets := [];
               modules := [ {| ModuleInfo.name := "Sheet1";
                               ModuleInfo.type_ := 100;
                               ModuleInfo.code_lines := 0 |} ];
               module_code := [("Sheet1", empty_module)];
               vba_error := Some "Call was rejected" |} in
  text_of (write_report r') = text_of (write_report r).
Proof.
  intros r r'.
  exact (@error_report_ignores_modules r r' "Call was rejected"
           eq_refl eq_refl eq_refl eq_refl eq_refl eq_refl).
Defined.
